(** * input-overlay: the overlay registry (io-obs/util/overlay.cpp)

    A shallow embedding of [overlay::load], [overlay::unload],
    [overlay::load_cfg], [overlay::load_texture], [overlay::load_element],
    [overlay::draw] and [overlay::refresh_data], with the properties of
    the element registry and of the refresh protocol proved about them.

    Pointers that may be null are [option]s; [std::map::operator[]] is
    modelled with the default entry it inserts; the calls made on
    collaborators (per-element draw, producer look-ups, merges) are
    returned as traces. *)

From stdpp Require Import gmap strings list.
From Stdlib Require Import ZArith.

Local Open Scope Z_scope.

(** ** Layout constants and element kinds *)

(** Modelled from the spec: layout_constants.hpp is absent; the closed set
    of element kinds is the one named by the cases of [load_element] and
    [element_type_to_string]. *)
Inductive element_type :=
  | INVALID | TEXTURE | BUTTON | MOUSE_SCROLLWHEEL | MOUSE_MOVEMENT
  | ANALOG_STICK | TRIGGER | GAMEPAD_ID | TEXT | DPAD_STICK.

(** Modelled from the spec: the source affinities tested by the switch of
    [refresh_data]. *)
Inductive element_source := NONE | DEFAULT | GAMEPAD | MOUSE_POS.

(** Modelled from the spec: the key names and the numbering of the kind
    enum live in layout_constants.hpp, which is absent; they are taken as
    parameters. [element_type_of_int] reads an integer tag as the
    enumerator with that value, [INVALID] when there is none. *)
Class LayoutConstants := {
  CFG_TOTAL_WIDTH : string;
  CFG_TOTAL_HEIGHT : string;
  CFG_FIRST_ID : string;
  CFG_DEBUG_FLAG : string;
  CFG_NEXT_ID : string;
  CFG_TYPE : string;
  element_type_of_int : Z → element_type
}.

(** ** The configuration reader (ccl) *)

(** Modelled from the spec: the ccl library is absent. A reader exposes
    typed getters taking a key and a silent (allow-missing) flag; a getter
    returns its value together with the reader, whose error report it may
    extend. A reader with fatal errors has errors. *)
Class CclConfig (C : Type) := {
  get_int : C → string → bool → Z * C;
  get_string : C → string → bool → string * C;
  get_bool : C → string → bool → bool * C;
  has_errors : C → bool;
  has_fatal_errors : C → bool;
  fatal_errors_are_errors c : has_fatal_errors c = true → has_errors c = true
}.

(** ** Runtime state records *)

Inductive button_state := STATE_PRESSED | STATE_RELEASED.

Inductive dpad_direction := DPAD_UP | DPAD_DOWN | DPAD_LEFT | DPAD_RIGHT.

(** A C float carried by its IEEE-754 bit pattern; [0.f] is all zeroes. *)
Inductive float32 := Float32 (bits : N).

Definition zero_f : float32 := Float32 0.

Inductive element_data :=
  | element_data_button (state : button_state)
  | element_data_wheel (middle : button_state)
  | element_data_trigger (left right : float32)
  | element_data_analog_stick (left right : button_state)
      (left_x left_y right_x right_y : float32)
  | element_data_dpad (direction : dpad_direction) (state : button_state)
  | element_data_mouse_stats (dx dy : Z).

(** ** Elements, settings, image and the overlay *)

(** What the overlay asks of an element: its kind, keycode and source
    affinity. [e_id] is the descriptor it was loaded from. *)
Record element := {
  e_id : string;
  get_type : element_type;
  get_keycode : Z;
  get_source : element_source
}.

(** Modelled from the spec: sources::shared_settings is declared in
    input_source.hpp, which is absent. [gamepad] and [selected_source] are
    unsigned indices (0 selects the local source); [cx] and [cy] are
    32-bit unsigned. *)
Record shared_settings := {
  image_file : string;
  layout_file : string;
  cx : Z;
  cy : Z;
  gamepad : N;
  selected_source : N
}.

(** The fields of [gs_image_file_t] the overlay reads. *)
Record gs_image_file_t := {
  loaded : bool;
  image_cx : Z;
  image_cy : Z
}.

(** [m_data] maps a keycode to a [unique_ptr<element_data>]: an entry can
    hold the null pointer, which is what [operator[]] inserts. The
    settings are held by pointer; [load] dereferences it at once (in
    [unload]), so the settings are always present here. *)
Record overlay := {
  m_settings : shared_settings;
  m_image : option gs_image_file_t;
  m_elements : list element;
  m_data : gmap Z (option element_data);
  m_is_loaded : bool
}.

Definition set_size (w h : Z) (s : shared_settings) : shared_settings :=
  {| image_file := image_file s; layout_file := layout_file s;
     cx := w; cy := h;
     gamepad := gamepad s; selected_source := selected_source s |}.

Definition set_gamepad (g : N) (s : shared_settings) : shared_settings :=
  {| image_file := image_file s; layout_file := layout_file s;
     cx := cx s; cy := cy s;
     gamepad := g; selected_source := selected_source s |}.

Definition with_settings (f : shared_settings → shared_settings)
    (o : overlay) : overlay :=
  {| m_settings := f (m_settings o); m_image := m_image o;
     m_elements := m_elements o; m_data := m_data o;
     m_is_loaded := m_is_loaded o |}.

Definition with_image (i : option gs_image_file_t) (o : overlay) : overlay :=
  {| m_settings := m_settings o; m_image := i;
     m_elements := m_elements o; m_data := m_data o;
     m_is_loaded := m_is_loaded o |}.

Definition with_elements (es : list element) (o : overlay) : overlay :=
  {| m_settings := m_settings o; m_image := m_image o;
     m_elements := es; m_data := m_data o;
     m_is_loaded := m_is_loaded o |}.

Definition with_data (d : gmap Z (option element_data)) (o : overlay)
    : overlay :=
  {| m_settings := m_settings o; m_image := m_image o;
     m_elements := m_elements o; m_data := d;
     m_is_loaded := m_is_loaded o |}.

Definition with_is_loaded (b : bool) (o : overlay) : overlay :=
  {| m_settings := m_settings o; m_image := m_image o;
     m_elements := m_elements o; m_data := m_data o;
     m_is_loaded := b |}.

(** [std::string::empty]. *)
Definition str_empty (s : string) : bool :=
  match s with EmptyString => true | String _ _ => false end.

(** [static_cast<uint32_t>] of an int. *)
Definition to_uint32 (v : Z) : Z := v mod 2 ^ 32.

(** [gs_image_file_free] releases the image and zeroes the structure. *)
Definition gs_image_file_free (i : gs_image_file_t) : gs_image_file_t :=
  {| loaded := false; image_cx := 0; image_cy := 0 |}.

(** The record allocated for an element of a given kind by the switch of
    [load_cfg]; [None] is the null pointer left by [default:]. *)
Definition new_element_data (t : element_type) : option element_data :=
  match t with
  | BUTTON => Some (element_data_button STATE_RELEASED)
  | MOUSE_SCROLLWHEEL => Some (element_data_wheel STATE_RELEASED)
  | TRIGGER => Some (element_data_trigger zero_f zero_f)
  | ANALOG_STICK =>
      Some (element_data_analog_stick STATE_RELEASED STATE_RELEASED
              zero_f zero_f zero_f zero_f)
  | DPAD_STICK => Some (element_data_dpad DPAD_LEFT STATE_RELEASED)
  | MOUSE_MOVEMENT => Some (element_data_mouse_stats 0 0)
  | _ => None
  end.

(** The loop [for (auto const& element : m_elements)] of [load_cfg]. *)
Fixpoint populate_data (es : list element)
    (m : gmap Z (option element_data)) : gmap Z (option element_data) :=
  match es with
  | [] => m
  | e :: es' =>
      populate_data es'
        match new_element_data (get_type e) with
        | Some d => <[get_keycode e := Some d]> m
        | None => m
        end
  end.

(** [m_data[k]]: the entry at [k], inserted holding null when missing. *)
Definition data_at (m : gmap Z (option element_data)) (k : Z)
    : option element_data * gmap Z (option element_data) :=
  match m !! k with
  | Some p => (p, m)
  | None => (None, <[k := None]> m)
  end.

(** The record a keycode is backed by, if any: a missing entry and an
    entry holding null both back nothing. *)
Definition record_of (m : gmap Z (option element_data)) (k : Z)
    : option element_data :=
  match m !! k with
  | Some p => p
  | None => None
  end.

(** The files behind the two paths of the settings:
    [gs_image_file_init] decodes an image file, [ccl_open] is
    [new ccl_config(path, ...)]. *)
Class Files (C : Type) := {
  gs_image_file_init : string → gs_image_file_t;
  ccl_open : string → C
}.

(** Modelled from the spec: the element classes are absent.
    [element_load t cfg id] is [load(cfg, id)] on a fresh element of kind
    [t]: it gives the keycode and source affinity the element answers
    with afterwards, and the reader it leaves. *)
Class ElementLoader (C : Type) := {
  element_load : element_type → C → string → (Z * element_source) * C
}.

(** Modelled from the spec: the element_data classes are absent.
    [merge d fragment] is the record after [d->merge(fragment)]. *)
Class ElementDataMerge := {
  merge : element_data → option element_data → element_data
}.

Section Overlay.

Context `{LayoutConstants} {C : Type}.
Context `{CclConfig C} `{Files C} `{ElementLoader C}.

(** *** Loading *)

Definition unload_texture (o : overlay) : overlay :=
  with_image (gs_image_file_free <$> m_image o) o.

Definition unload_elements (o : overlay) : overlay := with_elements [] o.

Definition unload (o : overlay) : overlay :=
  let o := unload_texture o in
  let o := unload_elements o in
  let o := with_data ∅ o in
  let o := with_settings (set_gamepad 0) o in
  with_settings (set_size 100 100) o.

Definition load_texture (o : overlay) : bool * overlay :=
  if str_empty (image_file (m_settings o)) then (false, o)
  else
    let img := gs_image_file_init (image_file (m_settings o)) in
    let o := with_image (Some img) o in
    if negb (loaded img) then (false, o)
    else (true, with_settings (set_size (image_cx img) (image_cy img)) o).

(** The element constructed for a kind tag, if any. *)
Definition constructed (type : Z) : option element_type :=
  match element_type_of_int type with
  | TEXTURE => Some TEXTURE
  | BUTTON => Some BUTTON
  | MOUSE_SCROLLWHEEL => Some MOUSE_SCROLLWHEEL
  | TRIGGER => Some TRIGGER
  | ANALOG_STICK => Some ANALOG_STICK
  | GAMEPAD_ID => Some GAMEPAD_ID
  | DPAD_STICK => Some DPAD_STICK
  | MOUSE_MOVEMENT => Some MOUSE_MOVEMENT
  | TEXT => None
  | INVALID => None
  end.

Definition load_element (cfg : C) (id : string) (es : list element)
    : C * list element :=
  let '(type, cfg) := get_int cfg (id +:+ CFG_TYPE) false in
  match constructed type with
  | Some t =>
      let '((code, src), cfg) := element_load t cfg id in
      (cfg, es ++ [ {| e_id := id; get_type := t;
                        get_keycode := code; get_source := src |} ])
  | None => (cfg, es)
  end.

(** The loop [while (!element_id.empty())]; [fuel] bounds the number of
    descriptors visited, [None] is a chain longer than that. *)
Fixpoint load_elements (fuel : nat) (cfg : C) (element_id : string)
    (es : list element) : option (C * list element) :=
  if str_empty element_id then Some (cfg, es)
  else
    match fuel with
    | O => None
    | S fuel' =>
        let '(cfg, es) := load_element cfg element_id es in
        let '(next, cfg) := get_string cfg (element_id +:+ CFG_NEXT_ID) true in
        load_elements fuel' cfg next es
    end.

(** Lines 80 to 106 of [load_cfg]: open the document and, unless it has
    fatal errors, read the size and the chain of descriptors. Gives the
    reader as it stands when its error report is consulted. *)
Definition read_layout (fuel : nat) (o : overlay) : option (C * overlay) :=
  let cfg := ccl_open (layout_file (m_settings o)) in
  if has_fatal_errors cfg then Some (cfg, o)
  else
    let '(w, cfg) := get_int cfg CFG_TOTAL_WIDTH true in
    let '(h, cfg) := get_int cfg CFG_TOTAL_HEIGHT true in
    let o := with_settings (set_size (to_uint32 w) (to_uint32 h)) o in
    let '(element_id, cfg) := get_string cfg CFG_FIRST_ID false in
    let '(debug_mode, cfg) := get_bool cfg CFG_DEBUG_FLAG true in
    '(cfg, es) ← load_elements fuel cfg element_id (m_elements o);
    Some (cfg, with_elements es o).

(** Lines 108 to 153 of [load_cfg]. *)
Definition report_cfg (cfg : C) (o : overlay) : bool * overlay :=
  if has_errors cfg then
    if has_fatal_errors cfg then (false, o)
    else (true, with_data (populate_data (m_elements o) (m_data o)) o)
  else (true, o).

Definition load_cfg (fuel : nat) (o : overlay) : option (bool * overlay) :=
  if str_empty (layout_file (m_settings o)) then Some (false, o)
  else
    '(cfg, o) ← read_layout fuel o;
    Some (report_cfg cfg o).

Definition load (fuel : nat) (o : overlay) : option (bool * overlay) :=
  let o := unload o in
  let '(image_loaded, o) := load_texture o in
  '(cfg_loaded, o) ←
    (if image_loaded then load_cfg fuel o else Some (false, o));
  let is_loaded := image_loaded && cfg_loaded in
  let o := with_is_loaded is_loaded o in
  Some (is_loaded,
        if negb is_loaded then
          let o := with_settings (set_gamepad 0) o in
          if negb image_loaded then with_settings (set_size 100 100) o
          else o
        else o).

(** [overlay::overlay]: construct with the settings and load. The
    members start out empty. *)
Definition new_overlay (fuel : nat) (settings : shared_settings)
    : option (bool * overlay) :=
  load fuel
    {| m_settings := settings; m_image := None; m_elements := [];
       m_data := ∅; m_is_loaded := false |}.

End Overlay.

(** ** Drawing *)

(** One call of [element->draw(effect, m_image, data, m_settings)]; the
    effect, image and settings are the same for every call of a frame. *)
Record draw_call := {
  drawn : element;
  drawn_data : option element_data
}.

Fixpoint draw_elements (es : list element)
    (m : gmap Z (option element_data))
    : gmap Z (option element_data) * list draw_call :=
  match es with
  | [] => (m, [])
  | e :: es' =>
      let '(data, m) := data_at m (get_keycode e) in
      let '(m, calls) := draw_elements es' m in
      (m, {| drawn := e; drawn_data := data |} :: calls)
  end.

Definition draw (o : overlay) : overlay * list draw_call :=
  if m_is_loaded o then
    let '(m, calls) := draw_elements (m_elements o) (m_data o) in
    (with_data m o, calls)
  else (o, []).

(** ** Producers *)

(** Modelled from the spec: element_data_holder is absent; a holder
    answers a look-up by keycode, or by gamepad index and keycode, with a
    state fragment or with null. *)
Record element_data_holder := {
  get_by_code : Z → option element_data;
  get_by_gamepad : N → Z → option element_data
}.

(** The globals [hook::data_initialized] and [hook::input_data]. *)
Record hook_state := {
  data_initialized : bool;
  input_data : option element_data_holder
}.

(** Modelled from the spec: the network classes are absent; a server
    holds its clients addressable by a 0-based index, each with a data
    holder. [get_client] gives null past the last client. *)
Record io_client := { get_data : option element_data_holder }.

Record io_server := { clients : list io_client }.

Definition get_client (srv : io_server) (id : N) : option io_client :=
  clients srv !! N.to_nat id.

(** The globals [network::network_flag] and [network::server_instance]. *)
Record network_state := {
  network_flag : bool;
  server_instance : option io_server
}.

(** Which holder the pointer [source] designates. *)
Inductive holder_ref :=
  | hook_input_data
  | client_data (id : N).

(** The calls [refresh_data] makes on its collaborators. *)
Inductive refresh_event :=
  | fetch_by_gamepad (src : holder_ref) (pad : N) (code : Z)
  | fetch_by_code (src : holder_ref) (code : Z)
  | merge_call (code : Z) (fragment : option element_data).

(** Lines 226 to 237: the value of [source] with the holder it points
    to, [Some None] when it stays null. The outer [None] is the null
    client dereferenced by [->get_data()]. *)
Definition select_source (h : hook_state) (n : network_state)
    (s : shared_settings)
    : option (option (holder_ref * element_data_holder)) :=
  if data_initialized h || network_flag n then
    match server_instance n with
    | Some srv =>
        if (0 <? selected_source s)%N then
          client ← get_client srv (selected_source s - 1)%N;
          Some (pair (client_data (selected_source s - 1)%N)
                  <$> get_data client)
        else Some (pair hook_input_data <$> input_data h)
    | None => Some (pair hook_input_data <$> input_data h)
    end
  else Some None.

(** The switch on [element->get_source()]: the fragment fetched and the
    look-up made. *)
Definition pull (src : holder_ref) (source : element_data_holder)
    (pad : N) (e : element) : option element_data * list refresh_event :=
  match get_source e with
  | GAMEPAD =>
      (get_by_gamepad source pad (get_keycode e),
       [fetch_by_gamepad src pad (get_keycode e)])
  | NONE => (None, [])
  | MOUSE_POS | DEFAULT =>
      (get_by_code source (get_keycode e),
       [fetch_by_code src (get_keycode e)])
  end.

Section Refresh.

Context `{ElementDataMerge}.

(** One iteration of the loop of [refresh_data]. The second
    [m_data[...]] finds the entry the test has just read. *)
Definition refresh_element (src : holder_ref)
    (source : element_data_holder) (pad : N) (e : element)
    (m : gmap Z (option element_data))
    : gmap Z (option element_data) * list refresh_event :=
  let '(data, fetched) := pull src source pad e in
  let '(entry, m) := data_at m (get_keycode e) in
  match entry with
  | Some d =>
      (<[get_keycode e := Some (merge d data)]> m,
       fetched ++ [merge_call (get_keycode e) data])
  | None => (m, fetched)
  end.

Fixpoint refresh_elements (src : holder_ref)
    (source : element_data_holder) (pad : N) (es : list element)
    (m : gmap Z (option element_data))
    : gmap Z (option element_data) * list refresh_event :=
  match es with
  | [] => (m, [])
  | e :: es' =>
      let '(m, evs) := refresh_element src source pad e m in
      let '(m, evs') := refresh_elements src source pad es' m in
      (m, evs ++ evs')
  end.

Definition refresh_data (h : hook_state) (n : network_state)
    (o : overlay) : option (overlay * list refresh_event) :=
  source ← select_source h n (m_settings o);
  match source with
  | Some (src, holder) =>
      let '(m, evs) :=
        refresh_elements src holder (gamepad (m_settings o))
          (m_elements o) (m_data o) in
      Some (with_data m o, evs)
  | None => Some (o, [])
  end.

End Refresh.

(** What the refresh protocol asks for, element by element: the look-up
    fixed by the source affinity, then a merge of the fragment it gave
    when the keycode is backed by a record. *)
Definition expected_events (src : holder_ref) (source : element_data_holder)
    (pad : N) (m : gmap Z (option element_data)) (e : element)
    : list refresh_event :=
  let fragment :=
    match get_source e with
    | GAMEPAD => get_by_gamepad source pad (get_keycode e)
    | DEFAULT | MOUSE_POS => get_by_code source (get_keycode e)
    | NONE => None
    end in
  match get_source e with
  | GAMEPAD => [fetch_by_gamepad src pad (get_keycode e)]
  | DEFAULT | MOUSE_POS => [fetch_by_code src (get_keycode e)]
  | NONE => []
  end
  ++ match record_of m (get_keycode e) with
     | Some _ => [merge_call (get_keycode e) fragment]
     | None => []
     end.

(** The holder an event reads, if it is a look-up. *)
Definition event_source (ev : refresh_event) : option holder_ref :=
  match ev with
  | fetch_by_gamepad src _ _ | fetch_by_code src _ => Some src
  | merge_call _ _ => None
  end.

(** The kinds that carry runtime state. *)
Definition carries_state (t : element_type) : bool :=
  match new_element_data t with Some _ => true | None => false end.

(** The elements whose record is stored under keycode [k]. *)
Definition backed_by (k : Z) (e : element) : bool :=
  bool_decide (get_keycode e = k) && carries_state (get_type e).

(** [overlay::element_type_to_string]. *)
Definition element_type_to_string (t : element_type) : string :=
  match t with
  | TEXTURE => "Texture"
  | BUTTON => "Button"
  | ANALOG_STICK => "Analog stick"
  | MOUSE_SCROLLWHEEL => "Scroll wheel"
  | MOUSE_MOVEMENT => "Mouse movement"
  | TRIGGER => "Trigger"
  | GAMEPAD_ID => "Gamepad ID"
  | TEXT => "Text"
  | DPAD_STICK => "DPad"
  | INVALID => "Invalid"
  end.

(** The fragment the switch of [refresh_data] leaves in [data] for an
    element. *)
Definition fetched (source : element_data_holder) (pad : N) (e : element)
    : option element_data :=
  match get_source e with
  | GAMEPAD => get_by_gamepad source pad (get_keycode e)
  | NONE => None
  | MOUSE_POS | DEFAULT => get_by_code source (get_keycode e)
  end.

(** The record under keycode [k] after it has absorbed, in sequence
    order, the fragment of every element that has this keycode. *)
Definition absorbed `{ElementDataMerge} (source : element_data_holder)
    (pad : N) (es : list element) (k : Z) (d : element_data)
    : element_data :=
  foldl (λ d e, merge d (fetched source pad e)) d
    (filter (λ e, get_keycode e = k) es).

(** ** A table-backed reader and sample files

    A concrete reader, constants, element loader, producers and files, at
    which the statements below are evaluated. *)
Module Sample.

Inductive ccl_value :=
  | ccl_int (v : Z)
  | ccl_string (v : string)
  | ccl_bool (v : bool).

(** A parsed document: its nodes, whether parsing failed fatally, and
    how many look-ups have been reported missing. *)
Record table := {
  nodes : list (string * ccl_value);
  fatal : bool;
  missing : nat
}.

Definition node (t : table) (key : string) : option ccl_value :=
  snd <$> List.find (λ kv, String.eqb (fst kv) key) (nodes t).

Definition report (silent : bool) (t : table) : table :=
  if silent then t
  else {| nodes := nodes t; fatal := fatal t; missing := S (missing t) |}.

Definition table_get_int (t : table) (key : string) (silent : bool)
    : Z * table :=
  match node t key with
  | Some (ccl_int v) => (v, t)
  | _ => (0, report silent t)
  end.

Definition table_get_string (t : table) (key : string) (silent : bool)
    : string * table :=
  match node t key with
  | Some (ccl_string v) => (v, t)
  | _ => (EmptyString, report silent t)
  end.

Definition table_get_bool (t : table) (key : string) (silent : bool)
    : bool * table :=
  match node t key with
  | Some (ccl_bool v) => (v, t)
  | _ => (false, report silent t)
  end.

Definition table_has_errors (t : table) : bool :=
  fatal t || negb (Nat.eqb (missing t) 0).

#[export] Instance table_config : CclConfig table := {|
  get_int := table_get_int;
  get_string := table_get_string;
  get_bool := table_get_bool;
  has_errors := table_has_errors;
  has_fatal_errors := fatal;
  fatal_errors_are_errors c Hc :=
    eq_ind_r (x := true)
      (λ b : bool, b || negb (Nat.eqb (missing c) 0) = true) eq_refl Hc
|}.

Definition kind_of_tag (tag : Z) : element_type :=
  match tag with
  | 0 => TEXTURE
  | 1 => BUTTON
  | 2 => MOUSE_SCROLLWHEEL
  | 3 => MOUSE_MOVEMENT
  | 4 => ANALOG_STICK
  | 5 => TRIGGER
  | 6 => GAMEPAD_ID
  | 7 => TEXT
  | 8 => DPAD_STICK
  | _ => INVALID
  end.

#[export] Instance constants : LayoutConstants := {|
  CFG_TOTAL_WIDTH := "overlay_width";
  CFG_TOTAL_HEIGHT := "overlay_height";
  CFG_FIRST_ID := "first_element";
  CFG_DEBUG_FLAG := "debug";
  CFG_NEXT_ID := "_next";
  CFG_TYPE := "_type";
  element_type_of_int := kind_of_tag
|}.

Definition affinity (t : element_type) : element_source :=
  match t with
  | ANALOG_STICK | TRIGGER | DPAD_STICK | GAMEPAD_ID => GAMEPAD
  | MOUSE_MOVEMENT => MOUSE_POS
  | TEXTURE => NONE
  | _ => DEFAULT
  end.

(** An element reads its keycode; only a kind that carries state
    reports a missing one. *)
Definition table_element_load (t : element_type) (cfg : table)
    (id : string) : (Z * element_source) * table :=
  let '(code, cfg) :=
    table_get_int cfg (id +:+ "_code") (negb (carries_state t)) in
  ((code, affinity t), cfg).

#[export] Instance loader : ElementLoader table := {|
  element_load := table_element_load
|}.

Definition document (ns : list (string * ccl_value)) : table :=
  {| nodes := ns; fatal := false; missing := 0 |}.

(** Two buttons on keycode 0x41, a wheel on 0x01 and a texture. *)
Definition keys_nodes : list (string * ccl_value) :=
  [ ("overlay_width", ccl_int 300); ("overlay_height", ccl_int 200);
    ("first_element", ccl_string "a");
    ("a_type", ccl_int 1); ("a_code", ccl_int 65);
    ("a_next", ccl_string "b");
    ("b_type", ccl_int 1); ("b_code", ccl_int 65);
    ("b_next", ccl_string "w");
    ("w_type", ccl_int 2); ("w_code", ccl_int 1);
    ("w_next", ccl_string "t");
    ("t_type", ccl_int 0) ].

(** A button and then a wheel, both on keycode 0x41. *)
Definition mixed_nodes : list (string * ccl_value) :=
  [ ("first_element", ccl_string "a");
    ("a_type", ccl_int 1); ("a_code", ccl_int 65);
    ("a_next", ccl_string "w");
    ("w_type", ccl_int 2); ("w_code", ccl_int 65) ].

(** The documents on disk. [keys.ini] is complete. [degraded.ini] and
    [mixed.ini] each end their chain on a descriptor [x] whose kind is
    missing: the reader reports the look-up and answers 0, the tag of a
    texture. [broken.ini] holds the descriptors of [keys.ini] and failed
    to parse. *)
Definition open_document (path : string) : table :=
  if String.eqb path "keys.ini" then document keys_nodes
  else if String.eqb path "degraded.ini" then
    document (keys_nodes ++ [ ("t_next", ccl_string "x") ])
  else if String.eqb path "mixed.ini" then
    document (mixed_nodes ++ [ ("w_next", ccl_string "x") ])
  else if String.eqb path "broken.ini" then
    {| nodes := keys_nodes; fatal := true; missing := 0 |}
  else {| nodes := []; fatal := true; missing := 0 |}.

(** The images on disk: [keys.png] is 256 by 128, nothing else loads. *)
Definition open_image (path : string) : gs_image_file_t :=
  if String.eqb path "keys.png" then
    {| loaded := true; image_cx := 256; image_cy := 128 |}
  else {| loaded := false; image_cx := 0; image_cy := 0 |}.

#[export] Instance disk : Files table := {|
  gs_image_file_init := open_image;
  ccl_open := open_document
|}.

(** An overlay as constructed, before its first load. *)
Definition initial (image layout : string) (selected : N) : overlay :=
  {| m_settings :=
       {| image_file := image; layout_file := layout;
          cx := 0; cy := 0; gamepad := 0; selected_source := selected |};
     m_image := None; m_elements := []; m_data := ∅;
     m_is_loaded := false |}.

(** The overlay [load] leaves, the initial one if it does not return. *)
Definition loaded_from (image layout : string) (selected : N) : overlay :=
  match load 8 (initial image layout selected) with
  | Some (_, o) => o
  | None => initial image layout selected
  end.

(** A merge that takes the fragment when there is one. *)
#[export] Instance absorb : ElementDataMerge := {|
  merge d fragment := default d fragment
|}.

(** The local hook reports keycode 0x41 pressed. *)
Definition hook_holder : element_data_holder :=
  {| get_by_code code :=
       if code =? 65 then Some (element_data_button STATE_PRESSED)
       else None;
     get_by_gamepad pad code := None |}.

Definition hook : hook_state :=
  {| data_initialized := true; input_data := Some hook_holder |}.

Definition hook_down : hook_state :=
  {| data_initialized := false; input_data := None |}.

(** The second client of the server reports the wheel on 0x01
    pressed. *)
Definition client_holder : element_data_holder :=
  {| get_by_code code :=
       if code =? 1 then Some (element_data_wheel STATE_PRESSED)
       else None;
     get_by_gamepad pad code := None |}.

Definition idle_holder : element_data_holder :=
  {| get_by_code code := None; get_by_gamepad pad code := None |}.

Definition network : network_state :=
  {| network_flag := true;
     server_instance :=
       Some {| clients := [ {| get_data := Some idle_holder |};
                            {| get_data := Some client_holder |} ] |} |}.

Definition network_down : network_state :=
  {| network_flag := false; server_instance := None |}.

End Sample.

(** ** A reader that fails late

    The table-backed reader with one change: a look-up that is not
    silent and finds nothing is a fatal error. With it a document can be
    free of fatal errors when opened and report one while its
    descriptors are read. *)
Module Strict.

Definition report (silent : bool) (t : Sample.table) : Sample.table :=
  if silent then t
  else {| Sample.nodes := Sample.nodes t; Sample.fatal := true;
          Sample.missing := S (Sample.missing t) |}.

Definition strict_get_int (t : Sample.table) (key : string) (silent : bool)
    : Z * Sample.table :=
  match Sample.node t key with
  | Some (Sample.ccl_int v) => (v, t)
  | _ => (0, report silent t)
  end.

Definition strict_get_string (t : Sample.table) (key : string)
    (silent : bool) : string * Sample.table :=
  match Sample.node t key with
  | Some (Sample.ccl_string v) => (v, t)
  | _ => (EmptyString, report silent t)
  end.

Definition strict_get_bool (t : Sample.table) (key : string) (silent : bool)
    : bool * Sample.table :=
  match Sample.node t key with
  | Some (Sample.ccl_bool v) => (v, t)
  | _ => (false, report silent t)
  end.

Definition strict_config : CclConfig Sample.table := {|
  get_int := strict_get_int;
  get_string := strict_get_string;
  get_bool := strict_get_bool;
  has_errors := Sample.table_has_errors;
  has_fatal_errors := Sample.fatal;
  fatal_errors_are_errors c Hc :=
    eq_ind_r (x := true)
      (λ b : bool, b || negb (Nat.eqb (Sample.missing c) 0) = true)
      eq_refl Hc
|}.

(** [load] and [read_layout] with the strict reader over the sample
    files, constants and element loader. *)
Definition load (fuel : nat) (o : overlay) : option (bool * overlay) :=
  @load Sample.constants Sample.table strict_config Sample.disk
    Sample.loader fuel o.

Definition read_layout (fuel : nat) (o : overlay)
    : option (Sample.table * overlay) :=
  @read_layout Sample.constants Sample.table strict_config Sample.disk
    Sample.loader fuel o.

End Strict.

(** * Properties *)

(** ** The data map after the population loop *)

Lemma populate_data_lookup (es : list element)
    (m : gmap Z (option element_data)) (k : Z) :
  populate_data es m !! k =
    match last (filter (λ e, backed_by k e = true) es) with
    | Some e => Some (new_element_data (get_type e))
    | None => m !! k
    end.
Proof.
  revert m. induction es as [|e es IH]; intros m; [done|].
  cbn [populate_data]. rewrite IH, filter_cons.
  destruct (decide (backed_by k e = true)) as [Hb|Hb].
  - apply andb_true_iff in Hb as [Hk Hst].
    apply bool_decide_eq_true in Hk. unfold carries_state in Hst.
    rewrite last_cons. destruct (last _); [done|].
    destruct (new_element_data (get_type e)) as [d|]; [|done].
    by rewrite Hk, lookup_insert_eq.
  - destruct (last _); [done|].
    destruct (new_element_data (get_type e)) as [d|] eqn:Hd; [|done].
    apply lookup_insert_ne. intros Hk. apply Hb.
    unfold backed_by, carries_state. by rewrite bool_decide_eq_true_2, Hd.
Qed.

Lemma populate_data_backed (es : list element)
    (m : gmap Z (option element_data)) (e : element) :
  e ∈ es → carries_state (get_type e) = true →
  ∃ d, populate_data es m !! get_keycode e = Some (Some d).
Proof.
  intros Hin Hst. rewrite populate_data_lookup.
  assert (Hf : e ∈ filter (λ e', backed_by (get_keycode e) e' = true) es).
  { apply list_elem_of_filter. split; [|done].
    unfold backed_by. by rewrite bool_decide_eq_true_2, Hst. }
  destruct (last _) as [e'|] eqn:Hlast.
  - apply last_Some_elem_of, list_elem_of_filter in Hlast as [Hb _].
    unfold backed_by, carries_state in Hb.
    apply andb_true_iff in Hb as [_ Hb].
    destruct (new_element_data (get_type e')) as [d|]; [by exists d|done].
  - apply last_None in Hlast. rewrite Hlast in Hf. by apply elem_of_nil in Hf.
Qed.

Section LoadFacts.

Context `{LayoutConstants} {C : Type}.
Context `{CclConfig C} `{Files C} `{ElementLoader C}.

(** *** What the steps leave alone *)

Lemma load_texture_unload (o : overlay) :
  let o1 := (load_texture (unload o)).2 in
  image_file (m_settings o1) = image_file (m_settings o) ∧
  layout_file (m_settings o1) = layout_file (m_settings o) ∧
  selected_source (m_settings o1) = selected_source (m_settings o) ∧
  gamepad (m_settings o1) = 0%N ∧
  m_elements o1 = [] ∧ m_data o1 = ∅.
Proof.
  unfold load_texture, unload. cbn.
  destruct (str_empty _); [done|]. cbn.
  by destruct (loaded _).
Qed.

Lemma read_layout_frame (fuel : nat) (o o' : overlay) (cfg : C) :
  read_layout fuel o = Some (cfg, o') →
  image_file (m_settings o') = image_file (m_settings o) ∧
  layout_file (m_settings o') = layout_file (m_settings o) ∧
  selected_source (m_settings o') = selected_source (m_settings o) ∧
  gamepad (m_settings o') = gamepad (m_settings o) ∧
  m_image o' = m_image o ∧ m_data o' = m_data o ∧
  m_is_loaded o' = m_is_loaded o.
Proof.
  unfold read_layout. destruct (has_fatal_errors _).
  - intros [= <- <-]. done.
  - destruct (get_int _ CFG_TOTAL_WIDTH _) as [w c1].
    destruct (get_int _ CFG_TOTAL_HEIGHT _) as [h c2].
    destruct (get_string _ CFG_FIRST_ID _) as [i c3].
    destruct (get_bool _ CFG_DEBUG_FLAG _) as [d c4]. cbn.
    destruct (load_elements _ _ _ _) as [[c5 es]|]; [|done].
    cbn. intros [= <- <-]. done.
Qed.

(** The shape of a load that went through: what [load] returns in terms
    of its two steps. *)
Lemma load_unfold (fuel : nat) (o : overlay) :
  load fuel o =
    let r := load_texture (unload o) in
    if r.1 then
      '(cfg_loaded, o2) ← load_cfg fuel r.2;
      Some (cfg_loaded,
            if cfg_loaded : bool then with_is_loaded true o2
            else with_settings (set_gamepad 0) (with_is_loaded false o2))
    else
      Some (false,
            with_settings (set_size 100 100)
              (with_settings (set_gamepad 0) (with_is_loaded false r.2))).
Proof.
  unfold load. destruct (load_texture (unload o)) as [[] o1]; cbn.
  - destruct (load_cfg fuel o1) as [[[] o2]|]; done.
  - done.
Qed.

Lemma load_cfg_frame (fuel : nat) (o o' : overlay) (b : bool) :
  load_cfg fuel o = Some (b, o') →
  image_file (m_settings o') = image_file (m_settings o) ∧
  layout_file (m_settings o') = layout_file (m_settings o) ∧
  selected_source (m_settings o') = selected_source (m_settings o) ∧
  gamepad (m_settings o') = gamepad (m_settings o) ∧
  m_image o' = m_image o ∧ m_is_loaded o' = m_is_loaded o.
Proof.
  unfold load_cfg. destruct (str_empty _).
  - intros [= <- <-]. done.
  - destruct (read_layout fuel o) as [[cfg o1]|] eqn:Hr; [|done].
    apply read_layout_frame in Hr as (? & ? & ? & ? & ? & ? & ?).
    cbn. unfold report_cfg.
    destruct (has_errors cfg), (has_fatal_errors cfg);
      intros [= <- <-]; done.
Qed.

(** The configuration step returns true exactly when there is a layout
    path and the reader ends without fatal errors. *)
Lemma load_cfg_flag (fuel : nat) (o o' : overlay) (b : bool) :
  load_cfg fuel o = Some (b, o') →
  b = true ↔
    str_empty (layout_file (m_settings o)) = false ∧
    ∃ cfg o1, read_layout fuel o = Some (cfg, o1) ∧
              has_fatal_errors cfg = false.
Proof.
  unfold load_cfg. destruct (str_empty _).
  - intros [= <- <-]. split; [done|]. by intros [[=] _].
  - destruct (read_layout fuel o) as [[cfg o1]|]; [|done]. cbn.
    unfold report_cfg.
    destruct (has_fatal_errors cfg) eqn:Hf.
    + rewrite (fatal_errors_are_errors _ Hf). intros [= <- <-].
      split; [done|]. intros [_ (cfg' & o1' & [= <- <-] & Hf')]. congruence.
    + destruct (has_errors cfg); intros [= <- <-]; split; eauto.
Qed.

(** A load that ends with errors and none of them fatal keeps the
    elements read and populates the data map from them, starting from
    the map [unload] left empty. *)
Lemma load_degraded (fuel : nat) (o o' o1 : overlay) (cfg : C) :
  load fuel o = Some (true, o') →
  read_layout fuel (load_texture (unload o)).2 = Some (cfg, o1) →
  has_errors cfg = true →
  m_elements o' = m_elements o1 ∧
  m_data o' = populate_data (m_elements o1) ∅.
Proof.
  rewrite load_unfold. cbn zeta.
  pose proof (load_texture_unload o) as (_ & _ & _ & _ & _ & Hd).
  destruct (load_texture (unload o)) as [[] o0]; [|done].
  cbn in *. unfold load_cfg. destruct (str_empty _); [done|].
  intros Hl Hr He. rewrite Hr in Hl. cbn in Hl. unfold report_cfg in Hl.
  apply read_layout_frame in Hr as (_ & _ & _ & _ & _ & Hd1 & _).
  rewrite He in Hl. destruct (has_fatal_errors cfg); [done|].
  injection Hl as <-. cbn. by rewrite Hd1, Hd.
Qed.

(** *** Fuel

    A load that returns with some fuel returns the same with more. *)

Lemma load_elements_fuel_mono (fuel fuel' : nat) (cfg : C)
    (element_id : string) (es : list element) (r : C * list element) :
  load_elements fuel cfg element_id es = Some r →
  (fuel ≤ fuel')%nat →
  load_elements fuel' cfg element_id es = Some r.
Proof.
  revert fuel' cfg element_id es.
  induction fuel as [|fuel IH]; intros fuel' cfg element_id es.
  - cbn. destruct (str_empty element_id) eqn:He; [|done].
    intros Hr _. destruct fuel'; cbn; by rewrite He.
  - cbn. destruct (str_empty element_id) eqn:He.
    + intros Hr _. destruct fuel'; cbn; by rewrite He.
    + intros Hr Hle. destruct fuel' as [|fuel']; [lia|].
      cbn. rewrite He.
      destruct (load_element cfg element_id es) as [c1 es1].
      destruct (get_string c1 _ _) as [next c2].
      apply IH; [done|lia].
Qed.

Lemma load_fuel_mono (fuel fuel' : nat) (o : overlay)
    (r : bool * overlay) :
  load fuel o = Some r → (fuel ≤ fuel')%nat → load fuel' o = Some r.
Proof.
  intros Hl Hle. revert Hl. unfold load.
  destruct (load_texture (unload o)) as [[] o1]; [|done].
  unfold load_cfg. destruct (str_empty _); [done|].
  unfold read_layout. destruct (has_fatal_errors _); [done|].
  destruct (get_int _ CFG_TOTAL_WIDTH _) as [w c1].
  destruct (get_int _ CFG_TOTAL_HEIGHT _) as [h c2].
  destruct (get_string _ CFG_FIRST_ID _) as [i c3].
  destruct (get_bool _ CFG_DEBUG_FLAG _) as [d c4].
  destruct (load_elements fuel _ _ _) as [r1|] eqn:He; [|done].
  by rewrite (load_elements_fuel_mono _ _ _ _ _ _ He Hle).
Qed.

(** *** Reloading *)

Lemma load_texture_is_loaded (b : bool) (o : overlay) :
  load_texture (with_is_loaded b o) =
    ((load_texture o).1, with_is_loaded b (load_texture o).2).
Proof.
  unfold load_texture. cbn. destruct (str_empty _); [done|].
  by destruct (loaded _).
Qed.

Lemma read_layout_is_loaded (b : bool) (fuel : nat) (o : overlay) :
  read_layout fuel (with_is_loaded b o) =
    prod_map id (with_is_loaded b) <$> read_layout fuel o.
Proof.
  unfold read_layout. cbn. destruct (has_fatal_errors _); [done|].
  destruct (get_int _ CFG_TOTAL_WIDTH _) as [w c1].
  destruct (get_int _ CFG_TOTAL_HEIGHT _) as [h c2].
  destruct (get_string _ CFG_FIRST_ID _) as [i c3].
  destruct (get_bool _ CFG_DEBUG_FLAG _) as [d c4]. cbn.
  by destruct (load_elements _ _ _ _) as [[c5 es]|].
Qed.

Lemma load_cfg_is_loaded (b : bool) (fuel : nat) (o : overlay) :
  load_cfg fuel (with_is_loaded b o) =
    prod_map id (with_is_loaded b) <$> load_cfg fuel o.
Proof.
  unfold load_cfg. cbn. destruct (str_empty _); [done|].
  rewrite read_layout_is_loaded.
  destruct (read_layout fuel o) as [[cfg o1]|]; [|done]. cbn.
  unfold report_cfg. by destruct (has_errors cfg), (has_fatal_errors cfg).
Qed.

(** [load] reads of the overlay only the two paths, the selected source
    and, when there is no image path, the image structure it frees. *)
Lemma load_same_inputs (fuel : nat) (o o2 : overlay) :
  image_file (m_settings o2) = image_file (m_settings o) →
  layout_file (m_settings o2) = layout_file (m_settings o) →
  selected_source (m_settings o2) = selected_source (m_settings o) →
  (str_empty (image_file (m_settings o)) = true →
   gs_image_file_free <$> m_image o2 = gs_image_file_free <$> m_image o) →
  load fuel o2 = load fuel o.
Proof.
  intros Hi Hl Hs Hm.
  assert (Ht : load_texture (unload o2) =
            ((load_texture (unload o)).1,
             with_is_loaded (m_is_loaded o2) (load_texture (unload o)).2)).
  { unfold load_texture, unload, unload_texture, unload_elements,
      with_image, with_elements, with_data, with_settings,
      with_is_loaded, set_size, set_gamepad.
    cbn. rewrite Hi, Hl, Hs. destruct (str_empty _) eqn:He; cbn.
    - by rewrite (Hm eq_refl).
    - by destruct (loaded _). }
  rewrite !load_unfold. cbn zeta. rewrite Ht. cbn.
  destruct (load_texture (unload o)) as [[] o1]; cbn; [|done].
  rewrite load_cfg_is_loaded.
  by destruct (load_cfg fuel o1) as [[[] o3]|].
Qed.

Lemma load_frame (fuel : nat) (o o1 : overlay) (b : bool) :
  load fuel o = Some (b, o1) →
  image_file (m_settings o1) = image_file (m_settings o) ∧
  layout_file (m_settings o1) = layout_file (m_settings o) ∧
  selected_source (m_settings o1) = selected_source (m_settings o) ∧
  (str_empty (image_file (m_settings o)) = true →
   m_image o1 = gs_image_file_free <$> m_image o).
Proof.
  rewrite load_unfold. cbn zeta.
  pose proof (load_texture_unload o) as (Hi & Hy & Hs & _ & _ & _).
  assert (Him : str_empty (image_file (m_settings o)) = true →
            load_texture (unload o) = (false, unload o)).
  { unfold load_texture, unload. cbn. by intros ->. }
  destruct (load_texture (unload o)) as [[] o0]; cbn in *.
  - destruct (load_cfg fuel o0) as [[c o2]|] eqn:Hc; [|done]. cbn.
    apply load_cfg_frame in Hc as (Hi2 & Hy2 & Hs2 & _ & _ & _).
    intros [= <- <-].
    repeat split; [destruct c; cbn; congruence .. |].
    intros He. by specialize (Him He).
  - intros [= <- <-]. repeat split; [done..|].
    intros He. specialize (Him He). by injection Him as ->.
Qed.

(** *** The claims about loading *)


(** C6. The value [load] returns is the value it leaves in
    [m_is_loaded], and it is true exactly when the texture step and the
    configuration step both returned true. *)
Theorem load_is_loaded_iff (fuel : nat) (o o' : overlay) (b : bool) :
  load fuel o = Some (b, o') →
  m_is_loaded o' = b ∧
  (b = true ↔
     (load_texture (unload o)).1 = true ∧
     fst <$> load_cfg fuel (load_texture (unload o)).2 = Some true).
Proof.
  rewrite load_unfold. cbn zeta.
  destruct (load_texture (unload o)) as [[] o1]; cbn.
  - destruct (load_cfg fuel o1) as [[[] o2]|]; cbn; [| |done].
    + intros [= <- <-]. done.
    + intros [= <- <-]. split; [done|]. split; [done|]. by intros [_ [=]].
  - intros [= <- <-]. split; [done|]. split; [done|]. by intros [[=] _].
Qed.

(** C3, amended. A load that fails leaves the gamepad index at 0. It
    leaves the size at 100 by 100 when the texture step failed; when the
    texture step succeeded and the layout path is empty or the document
    has fatal errors on opening, the size is that of the image. *)
Theorem load_failure_settings (fuel : nat) (o o' : overlay) :
  load fuel o = Some (false, o') →
  m_is_loaded o' = false ∧
  gamepad (m_settings o') = 0%N ∧
  ((load_texture (unload o)).1 = false →
   cx (m_settings o') = 100 ∧ cy (m_settings o') = 100) ∧
  ((load_texture (unload o)).1 = true →
   str_empty (layout_file (m_settings o)) = true ∨
   has_fatal_errors (ccl_open (layout_file (m_settings o))) = true →
   let img := gs_image_file_init (image_file (m_settings o)) in
   cx (m_settings o') = image_cx img ∧ cy (m_settings o') = image_cy img).
Proof.
  rewrite load_unfold. cbn zeta.
  pose proof (load_texture_unload o) as (_ & Hl & _ & _ & _ & _).
  assert (Hsz : (load_texture (unload o)).1 = true →
            let img := gs_image_file_init (image_file (m_settings o)) in
            cx (m_settings (load_texture (unload o)).2) = image_cx img ∧
            cy (m_settings (load_texture (unload o)).2) = image_cy img).
  { unfold load_texture, unload. cbn. destruct (str_empty _); [done|].
    cbn. by destruct (loaded _). }
  destruct (load_texture (unload o)) as [[] o1]; cbn in *.
  - destruct (load_cfg fuel o1) as [[[] o2]|] eqn:Hc; cbn; [done| |done].
    intros [= <-]. cbn. split; [done|]. split; [done|]. split; [done|].
    intros _ Hbad. revert Hc. unfold load_cfg. rewrite Hl.
    destruct Hbad as [-> | Hf].
    + intros [= <-]. by apply Hsz.
    + destruct (str_empty _); [intros [= <-]; by apply Hsz|].
      unfold read_layout. rewrite Hl, Hf. cbn. unfold report_cfg.
      rewrite (fatal_errors_are_errors _ Hf), Hf.
      intros [= <-]. by apply Hsz.
  - intros [= <-]. cbn. done.
Qed.

(** C7. Loading again gives the same result: the flag returned, the
    elements, the data map and every other member of the overlay. *)
Theorem load_idempotent (fuel : nat) (o o1 : overlay) (b : bool) :
  load fuel o = Some (b, o1) →
  load fuel o1 = Some (b, o1).
Proof.
  intros Hl. transitivity (load fuel o); [|done].
  destruct (load_frame _ _ _ _ Hl) as (Hi & Hy & Hs & Hm).
  apply load_same_inputs; [done..|].
  intros He. rewrite (Hm He). by destruct (m_image o).
Qed.

(** C1, amended. After a load that returns true and whose configuration
    ended with errors, none of them fatal, every element of a kind that
    carries state (button, wheel, trigger, analog stick, D-pad, mouse
    movement) has a record in the data map under its keycode. *)
Theorem stateful_elements_covered (fuel : nat) (o o' o1 : overlay)
    (cfg : C) (e : element) :
  load fuel o = Some (true, o') →
  read_layout fuel (load_texture (unload o)).2 = Some (cfg, o1) →
  has_errors cfg = true →
  e ∈ m_elements o' →
  carries_state (get_type e) = true →
  ∃ d, m_data o' !! get_keycode e = Some (Some d).
Proof.
  intros Hl Hr He Hin Hst.
  destruct (load_degraded _ _ _ _ _ Hl Hr He) as [Hes ->].
  rewrite Hes in Hin. by apply populate_data_backed.
Qed.

(** X20. After a load that returns true and whose configuration ended
    with errors, none fatal, the entry of a keycode holds the record
    allocated for the last element, in configuration order, of a
    state-carrying kind with that keycode, whatever the kinds of the
    elements before it; a keycode no such element has is absent from the
    map. *)
Theorem shared_keycode_last_wins (fuel : nat) (o o' o1 : overlay)
    (cfg : C) (k : Z) :
  load fuel o = Some (true, o') →
  read_layout fuel (load_texture (unload o)).2 = Some (cfg, o1) →
  has_errors cfg = true →
  m_data o' !! k =
    (λ e, new_element_data (get_type e))
      <$> last (filter (λ e, backed_by k e = true) (m_elements o')).
Proof.
  intros Hl Hr He.
  destruct (load_degraded _ _ _ _ _ Hl Hr He) as [-> ->].
  rewrite populate_data_lookup. by destruct (last _).
Qed.


End LoadFacts.

(** ** Look-ups in the data map *)

Lemma data_at_entry (m : gmap Z (option element_data)) (k : Z) :
  (data_at m k).1 = record_of m k.
Proof. unfold data_at, record_of. by destruct (m !! k). Qed.

Lemma data_at_record (m : gmap Z (option element_data)) (k k' : Z) :
  record_of (data_at m k).2 k' = record_of m k'.
Proof.
  unfold data_at, record_of. destruct (m !! k) eqn:Hk; [done|]. cbn.
  destruct (decide (k = k')) as [<-|Hne].
  - by rewrite lookup_insert_eq, Hk.
  - by rewrite lookup_insert_ne.
Qed.

(** ** Drawing *)

Lemma draw_elements_calls (es : list element)
    (m : gmap Z (option element_data)) :
  (draw_elements es m).2 =
    map (λ e, {| drawn := e;
                 drawn_data := record_of m (get_keycode e) |}) es.
Proof.
  revert m. induction es as [|e es IH]; intros m; [done|].
  cbn [draw_elements map].
  pose proof (data_at_entry m (get_keycode e)) as He.
  pose proof (data_at_record m (get_keycode e)) as Hr.
  destruct (data_at m (get_keycode e)) as [data m1]. cbn in He, Hr.
  specialize (IH m1). destruct (draw_elements es m1) as [m2 calls].
  cbn in *. rewrite He, IH. f_equal.
  apply map_ext. intros e'. by rewrite Hr.
Qed.

(** The look-ups of a frame leave a null entry under every keycode that
    had none, and change nothing else. *)
Lemma draw_elements_data (es : list element)
    (m : gmap Z (option element_data)) (k : Z) :
  (draw_elements es m).1 !! k =
    match m !! k with
    | Some p => Some p
    | None => if decide (k ∈ get_keycode <$> es) then Some None else None
    end.
Proof.
  revert m. induction es as [|e es IH]; intros m.
  - cbn. destruct (m !! k); [done|]. symmetry.
    apply decide_False, not_elem_of_nil.
  - cbn [draw_elements]. unfold data_at.
    destruct (m !! get_keycode e) as [p|] eqn:He.
    + specialize (IH m). destruct (draw_elements es m) as [m2 calls].
      cbn in *. rewrite IH. destruct (m !! k) eqn:Hk; [done|].
      assert (Hne : k ≠ get_keycode e) by congruence.
      apply decide_ext. rewrite elem_of_cons. intuition.
    + specialize (IH (<[get_keycode e := None]> m)).
      destruct (draw_elements es _) as [m2 calls]. cbn in *. rewrite IH.
      destruct (decide (get_keycode e = k)) as [<-|Hne].
      * rewrite lookup_insert_eq, He. symmetry. apply decide_True.
        apply elem_of_cons. by left.
      * rewrite lookup_insert_ne by done. destruct (m !! k); [done|].
        apply decide_ext. rewrite elem_of_cons.
        split; [by right|]. intros [->|]; done.
Qed.

(** C10. When the overlay is loaded, [draw] calls the draw routine of
    every element once, in sequence order, with the record its keycode is
    backed by. For an element whose keycode has no entry in the data map
    the look-up leaves an entry holding null, and the element is drawn
    all the same, with the null pointer. *)
Theorem draw_every_element (o : overlay) :
  m_is_loaded o = true →
  (draw o).2 =
    map (λ e, {| drawn := e;
                 drawn_data := record_of (m_data o) (get_keycode e) |})
      (m_elements o) ∧
  (∀ i e, m_elements o !! i = Some e →
     m_data o !! get_keycode e = None →
     (draw o).2 !! i = Some {| drawn := e; drawn_data := None |} ∧
     m_data (draw o).1 !! get_keycode e = Some None).
Proof.
  intros Hl.
  assert (Hc : (draw o).2 =
            map (λ e, {| drawn := e;
                         drawn_data := record_of (m_data o) (get_keycode e) |})
              (m_elements o)).
  { unfold draw. rewrite Hl.
    pose proof (draw_elements_calls (m_elements o) (m_data o)) as Hd.
    by destruct (draw_elements _ _). }
  split; [done|]. intros i e He Hk. split.
  - rewrite Hc. change map with (@fmap list _).
    rewrite list_lookup_fmap, He. cbn. unfold record_of. by rewrite Hk.
  - unfold draw. rewrite Hl.
    pose proof (draw_elements_data (m_elements o) (m_data o) (get_keycode e))
      as Hd.
    destruct (draw_elements _ _) as [m calls]. cbn in *.
    rewrite Hd, Hk. apply decide_True.
    apply list_elem_of_fmap. exists e. split; [done|].
    by apply list_elem_of_lookup_2 in He.
Qed.

(** ** Refreshing *)

Section RefreshFacts.

Context `{ElementDataMerge}.

Lemma pull_events (src : holder_ref) (source : element_data_holder)
    (pad : N) (e : element) :
  Forall (λ ev, event_source ev = Some src) (pull src source pad e).2.
Proof.
  unfold pull. destruct (get_source e); cbn; repeat constructor.
Qed.

(** An iteration changes the state of records, never which keycodes
    are backed by one. *)
Lemma refresh_element_backed (src : holder_ref)
    (source : element_data_holder) (pad : N) (e : element)
    (m : gmap Z (option element_data)) (k : Z) :
  is_Some (record_of (refresh_element src source pad e m).1 k) ↔
  is_Some (record_of m k).
Proof.
  unfold refresh_element. destruct (pull src source pad e) as [data evs].
  pose proof (data_at_entry m (get_keycode e)) as He.
  pose proof (data_at_record m (get_keycode e) k) as Hr.
  destruct (data_at m (get_keycode e)) as [entry m1]. cbn in *.
  destruct entry as [d|]; cbn; [|by rewrite Hr].
  unfold record_of at 1. destruct (decide (get_keycode e = k)) as [<-|Hne].
  - rewrite lookup_insert_eq, <- He. split; eauto.
  - rewrite lookup_insert_ne by done. fold (record_of m1 k). by rewrite Hr.
Qed.

(** The record of the element's keycode absorbs the fragment pulled;
    the other records are left as they were. *)
Lemma refresh_element_record (src : holder_ref)
    (source : element_data_holder) (pad : N) (e : element)
    (m : gmap Z (option element_data)) (k : Z) :
  record_of (refresh_element src source pad e m).1 k =
    if decide (get_keycode e = k)
    then (λ d, merge d (pull src source pad e).1) <$> record_of m k
    else record_of m k.
Proof.
  unfold refresh_element. destruct (pull src source pad e) as [data evs].
  pose proof (data_at_entry m (get_keycode e)) as He.
  pose proof (data_at_record m (get_keycode e) k) as Hr.
  destruct (data_at m (get_keycode e)) as [entry m1]. cbn in *.
  destruct (decide (get_keycode e = k)) as [<-|Hne].
  - rewrite <- He. destruct entry as [d|]; cbn.
    + unfold record_of. by rewrite lookup_insert_eq.
    + by rewrite Hr, <- He.
  - destruct entry as [d|]; cbn; [|done].
    unfold record_of at 1. rewrite lookup_insert_ne by done.
    fold (record_of m1 k). done.
Qed.

Lemma expected_events_backed (src : holder_ref)
    (source : element_data_holder) (pad : N)
    (m m' : gmap Z (option element_data)) (e : element) :
  (is_Some (record_of m' (get_keycode e)) ↔
   is_Some (record_of m (get_keycode e))) →
  expected_events src source pad m' e = expected_events src source pad m e.
Proof.
  unfold expected_events. intros Hb. f_equal.
  destruct (record_of m' _), (record_of m _); [done| | |done].
  - destruct Hb as [Hb _]. by destruct Hb.
  - destruct Hb as [_ Hb]. by destruct Hb.
Qed.

Lemma refresh_element_events (src : holder_ref)
    (source : element_data_holder) (pad : N) (e : element)
    (m : gmap Z (option element_data)) :
  (refresh_element src source pad e m).2 =
    expected_events src source pad m e.
Proof.
  unfold refresh_element, expected_events, pull.
  pose proof (data_at_entry m (get_keycode e)) as He.
  destruct (data_at m (get_keycode e)) as [entry m1]. cbn in He.
  rewrite <- He.
  destruct (get_source e), entry; cbn; by rewrite ?app_nil_r.
Qed.

Lemma refresh_elements_events (src : holder_ref)
    (source : element_data_holder) (pad : N) (es : list element)
    (m : gmap Z (option element_data)) :
  (refresh_elements src source pad es m).2 =
    concat (map (expected_events src source pad m) es).
Proof.
  revert m. induction es as [|e es IH]; intros m; [done|].
  cbn [refresh_elements map concat].
  pose proof (refresh_element_events src source pad e m) as He.
  pose proof (refresh_element_backed src source pad e m) as Hb.
  destruct (refresh_element src source pad e m) as [m1 evs].
  specialize (IH m1).
  destruct (refresh_elements src source pad es m1) as [m2 evs'].
  cbn in *. rewrite He, IH. f_equal. f_equal.
  apply map_ext. intros e'. by apply expected_events_backed.
Qed.

Lemma expected_events_source (src : holder_ref)
    (source : element_data_holder) (pad : N)
    (m : gmap Z (option element_data)) (e : element) :
  Forall (λ ev, ∀ r, event_source ev = Some r → r = src)
    (expected_events src source pad m e).
Proof.
  unfold expected_events. apply Forall_app. split.
  - destruct (get_source e); repeat constructor; cbn; congruence.
  - destruct (record_of m _); repeat constructor; cbn; congruence.
Qed.

Lemma refresh_elements_source (src : holder_ref)
    (source : element_data_holder) (pad : N) (es : list element)
    (m : gmap Z (option element_data)) :
  Forall (λ ev, ∀ r, event_source ev = Some r → r = src)
    (refresh_elements src source pad es m).2.
Proof.
  rewrite refresh_elements_events.
  induction es as [|e es IH]; cbn; [constructor|].
  apply Forall_app. split; [apply expected_events_source|done].
Qed.

Lemma refresh_elements_backed (src : holder_ref)
    (source : element_data_holder) (pad : N) (es : list element)
    (m : gmap Z (option element_data)) (k : Z) :
  is_Some (record_of (refresh_elements src source pad es m).1 k) ↔
  is_Some (record_of m k).
Proof.
  revert m. induction es as [|e es IH]; intros m; [done|].
  cbn [refresh_elements].
  pose proof (refresh_element_backed src source pad e m k) as Hb.
  destruct (refresh_element src source pad e m) as [m1 evs].
  specialize (IH m1).
  destruct (refresh_elements src source pad es m1) as [m2 evs'].
  cbn in *. by rewrite IH.
Qed.

(** C8. In a refresh cycle that has a source, the calls made are, for
    each element in order: the look-up its source affinity fixes
    (by gamepad index and keycode for GAMEPAD, by keycode for DEFAULT
    and MOUSE_POS, none for NONE), then a merge of the fragment fetched,
    null included, exactly when the keycode is backed by a record. *)
Theorem refresh_pull_and_merge (h : hook_state) (n : network_state)
    (o : overlay) (src : holder_ref) (source : element_data_holder) :
  select_source h n (m_settings o) = Some (Some (src, source)) →
  ∃ o', refresh_data h n o =
          Some (o', concat (map (expected_events src source
                                   (gamepad (m_settings o)) (m_data o))
                              (m_elements o))) ∧
        m_elements o' = m_elements o ∧
        ∀ k, is_Some (record_of (m_data o') k) ↔
             is_Some (record_of (m_data o) k).
Proof.
  intros Hs. unfold refresh_data. rewrite Hs. cbn.
  pose proof (refresh_elements_events src source (gamepad (m_settings o))
                (m_elements o) (m_data o)) as He.
  pose proof (refresh_elements_backed src source (gamepad (m_settings o))
                (m_elements o) (m_data o)) as Hb.
  destruct (refresh_elements _ _ _ _ _) as [m evs]. cbn in *.
  eexists. rewrite He. split; [done|]. done.
Qed.

(** C4. With a server instance and a selected source other than 0, the
    source of a cycle is the data holder of the client at index
    [selected_source - 1] (when a producer is flagged at all), every
    look-up of the cycle is made on it, and the cycle does not depend
    on the data holder of the local hook. *)
Theorem refresh_source_exclusive (h : hook_state) (n : network_state)
    (o : overlay) (srv : io_server) :
  server_instance n = Some srv →
  selected_source (m_settings o) ≠ 0%N →
  let id := (selected_source (m_settings o) - 1)%N in
  select_source h n (m_settings o) =
    (if data_initialized h || network_flag n then
       client ← get_client srv id;
       Some (pair (client_data id) <$> get_data client)
     else Some None) ∧
  (∀ o' evs, refresh_data h n o = Some (o', evs) →
     Forall (λ ev, ∀ r, event_source ev = Some r → r = client_data id)
       evs) ∧
  (∀ local,
     refresh_data
       {| data_initialized := data_initialized h; input_data := local |}
       n o = refresh_data h n o).
Proof.
  intros Hsrv Hsel id.
  assert (Hpos : (0 <? selected_source (m_settings o))%N = true).
  { apply N.ltb_lt. lia. }
  assert (Hs : ∀ h', select_source h' n (m_settings o) =
            (if data_initialized h' || network_flag n then
               client ← get_client srv id;
               Some (pair (client_data id) <$> get_data client)
             else Some None)).
  { intros h'. unfold select_source. by rewrite Hsrv, Hpos. }
  split; [apply Hs|]. split.
  - intros o' evs. unfold refresh_data. rewrite Hs.
    destruct (_ || _); cbn.
    + destruct (get_client srv id) as [client|]; [|done]. cbn.
      destruct (get_data client) as [holder|]; cbn.
      * pose proof (refresh_elements_source (client_data id) holder
                      (gamepad (m_settings o)) (m_elements o) (m_data o))
          as Hf.
        destruct (refresh_elements _ _ _ _ _) as [m evs0].
        by intros [= <- <-].
      * intros [= <- <-]. constructor.
    + intros [= <- <-]. constructor.
  - intros local. unfold refresh_data. by rewrite !Hs.
Qed.

(** C9. When the hook has no initialised data and the network flag is
    down, a refresh cycle selects no source, makes no look-up and no
    merge, and leaves the overlay, its data map included, as it was. *)
Theorem refresh_without_producer (h : hook_state) (n : network_state)
    (o : overlay) :
  data_initialized h = false →
  network_flag n = false →
  select_source h n (m_settings o) = Some None ∧
  refresh_data h n o = Some (o, []).
Proof.
  intros Hh Hn. unfold refresh_data, select_source.
  by rewrite Hh, Hn.
Qed.

End RefreshFacts.

(** ** Further properties of loading *)

Section LoadMore.

Context `{LayoutConstants} {C : Type}.
Context `{CclConfig C} {F : Files C} `{ElementLoader C}.

Lemma load_texture_flag (o : overlay) :
  (load_texture (unload o)).1 =
    negb (str_empty (image_file (m_settings o)))
    && loaded (gs_image_file_init (image_file (m_settings o))).
Proof.
  unfold load_texture, unload. cbn. destruct (str_empty _); [done|].
  cbn. by destruct (loaded _).
Qed.

Lemma load_elements_kinds (P : element → Prop) (fuel : nat) (cfg cfg' : C)
    (element_id : string) (es es' : list element) :
  (∀ e, (∃ tag, constructed tag = Some (get_type e)) → P e) →
  load_elements fuel cfg element_id es = Some (cfg', es') →
  Forall P es → Forall P es'.
Proof.
  intros HP. revert cfg element_id es.
  induction fuel as [|fuel IH]; intros cfg element_id es; cbn.
  - destruct (str_empty _); [|done]. by intros [= <- <-].
  - destruct (str_empty _); [by intros [= <- <-]|].
    unfold load_element.
    destruct (get_int cfg _ _) as [type c1].
    destruct (constructed type) as [t|] eqn:Ht.
    + destruct (element_load t c1 element_id) as [[code src] c2].
      destruct (get_string c2 _ _) as [next c3].
      intros Hl Hes. apply (IH _ _ _ Hl).
      apply Forall_app. split; [done|]. constructor; [|constructor].
      apply HP. by exists type.
    + destruct (get_string c1 _ _) as [next c3].
      intros Hl Hes. by apply (IH _ _ _ Hl).
Qed.

(** What a load that returns leaves in the element sequence and in the
    data map, in terms of what [read_layout] read. *)
Lemma load_shape (fuel : nat) (o o' : overlay) (b : bool) :
  load fuel o = Some (b, o') →
  (b = false ∧ m_elements o' = [] ∧ m_data o' = ∅) ∨
  ∃ cfg o1,
    read_layout fuel (load_texture (unload o)).2 = Some (cfg, o1) ∧
    b = negb (has_fatal_errors cfg) ∧
    m_elements o' = m_elements o1 ∧
    m_data o' =
      (if has_errors cfg && negb (has_fatal_errors cfg)
       then populate_data (m_elements o1) ∅ else ∅) ∧
    cx (m_settings o') = cx (m_settings o1) ∧
    cy (m_settings o') = cy (m_settings o1).
Proof.
  rewrite load_unfold. cbn zeta.
  pose proof (load_texture_unload o) as (_ & _ & _ & _ & He & Hd).
  destruct (load_texture (unload o)) as [[] o0]; cbn in *.
  - unfold load_cfg. destruct (str_empty _); cbn.
    + intros [= <- <-]. left. done.
    + destruct (read_layout fuel o0) as [[cfg o1]|] eqn:Hr; [|done]. cbn.
      pose proof (read_layout_frame _ _ _ _ Hr) as (_ & _ & _ & _ & _ & Hd1 & _).
      unfold report_cfg. intros Hl. right. exists cfg, o1. split; [done|].
      destruct (has_errors cfg) eqn:Herr, (has_fatal_errors cfg) eqn:Hf;
        injection Hl as <- <-; cbn; rewrite ?Hd1, ?Hd; try done.
      by rewrite (fatal_errors_are_errors _ Hf) in Herr.
  - intros [= <- <-]. left. done.
Qed.

Lemma read_layout_kinds (P : element → Prop) (fuel : nat) (o o1 : overlay)
    (cfg : C) :
  (∀ e, (∃ tag, constructed tag = Some (get_type e)) → P e) →
  read_layout fuel o = Some (cfg, o1) →
  Forall P (m_elements o) → Forall P (m_elements o1).
Proof.
  intros HP. unfold read_layout. destruct (has_fatal_errors _).
  - by intros [= <- <-].
  - destruct (get_int _ CFG_TOTAL_WIDTH _) as [w c1].
    destruct (get_int _ CFG_TOTAL_HEIGHT _) as [h c2].
    destruct (get_string _ CFG_FIRST_ID _) as [i c3].
    destruct (get_bool _ CFG_DEBUG_FLAG _) as [d c4]. cbn.
    destruct (load_elements _ _ _ _) as [[c5 es]|] eqn:Hl; [|done].
    cbn. intros [= <- <-]. cbn. by apply (load_elements_kinds P _ _ _ _ _ _ HP Hl).
Qed.

(** X1. [load] returns true exactly when there is an image path, the
    image loads, there is a layout path, and the reader ends without
    fatal errors. *)
Theorem load_success_iff (fuel : nat) (o o' : overlay) (b : bool) :
  load fuel o = Some (b, o') →
  b = true ↔
    str_empty (image_file (m_settings o)) = false ∧
    loaded (gs_image_file_init (image_file (m_settings o))) = true ∧
    str_empty (layout_file (m_settings o)) = false ∧
    ∃ cfg o1,
      read_layout fuel (load_texture (unload o)).2 = Some (cfg, o1) ∧
      has_fatal_errors cfg = false.
Proof.
  rewrite load_unfold. cbn zeta.
  pose proof (load_texture_flag o) as Ht.
  pose proof (load_texture_unload o) as (_ & Hy & _).
  destruct (load_texture (unload o)) as [[] o0]; cbn in *.
  - symmetry in Ht. apply andb_true_iff in Ht as [Hi Hl].
    apply negb_true_iff in Hi.
    destruct (load_cfg fuel o0) as [[c o2]|] eqn:Hc; [|done]. cbn.
    apply load_cfg_flag in Hc. rewrite Hy in Hc.
    intros [= <- <-]. rewrite Hc. tauto.
  - intros [= <- <-]. split; [done|]. intros (Hi & Hl & _).
    by rewrite Hi, Hl in Ht.
Qed.

(** X2. Every element a load leaves in the sequence was constructed by
    one of the cases of [load_element]: its kind is never [TEXT] nor
    [INVALID]. *)
Theorem load_element_kinds (fuel : nat) (o o' : overlay) (b : bool)
    (e : element) :
  load fuel o = Some (b, o') →
  e ∈ m_elements o' →
  get_type e ≠ TEXT ∧ get_type e ≠ INVALID ∧
  ∃ tag, constructed tag = Some (get_type e).
Proof.
  intros Hl Hin.
  set (P := λ e : element,
         get_type e ≠ TEXT ∧ get_type e ≠ INVALID ∧
         ∃ tag, constructed tag = Some (get_type e)).
  assert (HP : ∀ e, (∃ tag, constructed tag = Some (get_type e)) → P e).
  { intros e' [tag Ht]. split; [|split; [|by exists tag]].
    - intros He. rewrite He in Ht. unfold constructed in Ht.
      by destruct (element_type_of_int tag).
    - intros He. rewrite He in Ht. unfold constructed in Ht.
      by destruct (element_type_of_int tag). }
  destruct (load_shape _ _ _ _ Hl) as [(_ & He & _)|(cfg & o1 & Hr & _ & He & _)].
  - rewrite He in Hin. by apply elem_of_nil in Hin.
  - rewrite He in Hin.
    pose proof (load_texture_unload o) as (_ & _ & _ & _ & He0 & _).
    assert (Hall : Forall P (m_elements o1)).
    { apply (read_layout_kinds P _ _ _ _ HP Hr). rewrite He0. constructor. }
    by apply (proj1 (Forall_forall _ _) Hall).
Qed.

(** X3. When a load returns true and the reader ended with no error at
    all, the data map is left empty: no element has a record. *)
Theorem load_without_errors_data_empty (fuel : nat) (o o' o1 : overlay)
    (cfg : C) :
  load fuel o = Some (true, o') →
  read_layout fuel (load_texture (unload o)).2 = Some (cfg, o1) →
  has_errors cfg = false →
  m_elements o' = m_elements o1 ∧ m_data o' = ∅.
Proof.
  intros Hl Hr He.
  destruct (load_shape _ _ _ _ Hl) as [([=] & _)|(cfg' & o1' & Hr' & _ & Hes & Hd & _)].
  rewrite Hr in Hr'. injection Hr' as <- <-.
  by rewrite He in Hd.
Qed.

(** X4. After any load that returns, every entry of the data map holds
    a record, never null, and it is the record allocated for an element
    of the sequence that has this keycode. *)
Theorem load_data_entries (fuel : nat) (o o' : overlay) (b : bool) (k : Z)
    (p : option element_data) :
  load fuel o = Some (b, o') →
  m_data o' !! k = Some p →
  ∃ e d, e ∈ m_elements o' ∧ get_keycode e = k ∧
         new_element_data (get_type e) = Some d ∧ p = Some d.
Proof.
  intros Hl Hk.
  destruct (load_shape _ _ _ _ Hl) as [(_ & _ & Hd)|(cfg & o1 & _ & _ & Hes & Hd & _)].
  - by rewrite Hd in Hk.
  - rewrite Hd in Hk. destruct (_ && _); [|done].
    rewrite populate_data_lookup in Hk.
    destruct (last _) as [e|] eqn:Hlast; [|done].
    apply last_Some_elem_of, list_elem_of_filter in Hlast as [Hb Hin].
    apply andb_true_iff in Hb as [Hkey Hst].
    apply bool_decide_eq_true in Hkey. unfold carries_state in Hst.
    destruct (new_element_data (get_type e)) as [d|] eqn:Hnew; [|done].
    exists e, d. rewrite Hes. injection Hk as <-. done.
Qed.

(** X5. A load that returns leaves the gamepad index at 0 and does not
    change the image path, the layout path or the selected source. *)
Theorem load_settings_frame (fuel : nat) (o o' : overlay) (b : bool) :
  load fuel o = Some (b, o') →
  gamepad (m_settings o') = 0%N ∧
  image_file (m_settings o') = image_file (m_settings o) ∧
  layout_file (m_settings o') = layout_file (m_settings o) ∧
  selected_source (m_settings o') = selected_source (m_settings o).
Proof.
  intros Hl. destruct (load_frame _ _ _ _ Hl) as (Hi & Hy & Hs & _).
  split; [|done]. revert Hl. rewrite load_unfold. cbn zeta.
  pose proof (load_texture_unload o) as (_ & _ & _ & Hg & _).
  destruct (load_texture (unload o)) as [[] o0]; cbn in *.
  - destruct (load_cfg fuel o0) as [[c o2]|] eqn:Hc; [|done]. cbn.
    apply load_cfg_frame in Hc as (_ & _ & _ & Hg2 & _).
    intros [= <- <-]. destruct c; cbn; congruence.
  - by intros [= <- <-].
Qed.

(** X6. When a load returns true, the logical size is the total width
    and height read from the layout document, cast to 32 bits unsigned;
    the size of the image, stored by the texture step, is overwritten. *)
Theorem load_success_size (fuel : nat) (o o' : overlay) :
  load fuel o = Some (true, o') →
  let cfg := ccl_open (layout_file (m_settings o)) in
  let w := get_int cfg CFG_TOTAL_WIDTH true in
  let h := get_int w.2 CFG_TOTAL_HEIGHT true in
  cx (m_settings o') = w.1 mod 2 ^ 32 ∧
  cy (m_settings o') = h.1 mod 2 ^ 32 ∧
  0 ≤ cx (m_settings o') < 2 ^ 32 ∧
  0 ≤ cy (m_settings o') < 2 ^ 32.
Proof.
  intros Hl cfg w h.
  assert (Hsz : cx (m_settings o') = w.1 mod 2 ^ 32 ∧
                cy (m_settings o') = h.1 mod 2 ^ 32).
  { destruct (load_shape _ _ _ _ Hl)
      as [([=] & _)|(cfg' & o1 & Hr & Hb & _ & _ & -> & ->)].
    pose proof (load_texture_unload o) as (_ & Hy & _).
    revert Hr. unfold read_layout. rewrite Hy. fold cfg.
    destruct (has_fatal_errors cfg) eqn:Hf.
    - intros [= <- <-]. by rewrite Hf in Hb.
    - subst w h. destruct (get_int cfg CFG_TOTAL_WIDTH true) as [w c1].
      cbn [fst snd].
      destruct (get_int c1 CFG_TOTAL_HEIGHT true) as [h c2].
      destruct (get_string _ CFG_FIRST_ID _) as [i c3].
      destruct (get_bool _ CFG_DEBUG_FLAG _) as [d c4]. cbn.
      destruct (load_elements _ _ _ _) as [[c5 es]|]; [|done].
      cbn. intros [= <- <-]. done. }
  destruct Hsz as [-> ->]. split; [done|]. split; [done|].
  split; apply Z.mod_pos_bound; done.
Qed.

(** X7. When there is no image path, or the image does not load, [load]
    returns false for every fuel and never opens the layout document:
    the outcome is the same whatever documents and element loaders are
    there. It leaves no element, an empty data map, size 100 by 100 and
    gamepad index 0. *)
Theorem load_texture_failure (o : overlay) :
  str_empty (image_file (m_settings o)) = true ∨
  loaded (gs_image_file_init (image_file (m_settings o))) = false →
  ∃ o',
    (∀ (fuel : nat) (documents : string → C) (E : ElementLoader C),
       @load _ C _
         {| gs_image_file_init := gs_image_file_init;
            ccl_open := documents |} E fuel o = Some (false, o')) ∧
    m_elements o' = [] ∧ m_data o' = ∅ ∧ m_is_loaded o' = false ∧
    cx (m_settings o') = 100 ∧ cy (m_settings o') = 100 ∧
    gamepad (m_settings o') = 0%N.
Proof.
  intros Hbad.
  exists (with_settings (set_size 100 100)
            (with_settings (set_gamepad 0)
               (with_is_loaded false (load_texture (unload o)).2))).
  assert (Hf : (load_texture (unload o)).1 = false).
  { rewrite load_texture_flag.
    destruct Hbad as [-> | ->]; [done|apply andb_false_r]. }
  pose proof (load_texture_unload o) as (_ & _ & _ & _ & He & Hd).
  split; [|done].
  intros fuel documents E. unfold load.
  assert (Ht : @load_texture C
                 {| gs_image_file_init := gs_image_file_init;
                    ccl_open := documents |} (unload o)
               = load_texture (unload o)) by reflexivity.
  rewrite Ht. by destruct (load_texture (unload o)) as [[] o0].
Qed.

(** X8. Two overlays that agree on the image path, the layout path, the
    selected source and the image structure load alike: what a load
    leaves does not depend on the elements, the data map, the size, the
    gamepad index or the loaded flag it finds. *)
Theorem load_ignores_stale_state (fuel : nat) (o o2 : overlay) :
  image_file (m_settings o2) = image_file (m_settings o) →
  layout_file (m_settings o2) = layout_file (m_settings o) →
  selected_source (m_settings o2) = selected_source (m_settings o) →
  m_image o2 = m_image o →
  load fuel o2 = load fuel o.
Proof.
  intros Hi Hy Hs Hm. apply load_same_inputs; [done..|].
  intros _. by rewrite Hm.
Qed.

(** X9. With an image path, loading an overlay again gives what
    constructing a new overlay from its settings gives. *)
Theorem reload_as_constructed (fuel : nat) (o : overlay) :
  str_empty (image_file (m_settings o)) = false →
  load fuel o = new_overlay fuel (m_settings o).
Proof.
  intros Hi. unfold new_overlay. symmetry.
  apply load_same_inputs; [done..|]. intros He. cbn in He. congruence.
Qed.

(** X19. With an image path, a load that returns leaves the image
    structure initialised from that path, also when the load fails: a
    texture that loaded is not released by the failure of the layout
    step. Without an image path the structure is the one [unload]
    freed. *)
Theorem load_image (fuel : nat) (o o' : overlay) (b : bool) :
  load fuel o = Some (b, o') →
  m_image o' =
    if str_empty (image_file (m_settings o))
    then gs_image_file_free <$> m_image o
    else Some (gs_image_file_init (image_file (m_settings o))).
Proof.
  rewrite load_unfold. cbn zeta.
  assert (Hi : m_image (load_texture (unload o)).2 =
            if str_empty (image_file (m_settings o))
            then gs_image_file_free <$> m_image o
            else Some (gs_image_file_init (image_file (m_settings o)))).
  { unfold load_texture, unload. cbn. destruct (str_empty _); [done|].
    cbn. by destruct (loaded _). }
  destruct (load_texture (unload o)) as [[] o0]; cbn in *.
  - destruct (load_cfg fuel o0) as [[c o2]|] eqn:Hc; [|done]. cbn.
    apply load_cfg_frame in Hc as (_ & _ & _ & _ & Hm & _).
    intros [= <- <-]. destruct c; cbn; congruence.
  - by intros [= <- <-].
Qed.

End LoadMore.

(** ** Further properties of drawing *)

Lemma draw_elements_settled (es : list element)
    (m : gmap Z (option element_data)) :
  (∀ e, e ∈ es → is_Some (m !! get_keycode e)) →
  draw_elements es m =
    (m, map (λ e, {| drawn := e;
                     drawn_data := record_of m (get_keycode e) |}) es).
Proof.
  intros Hall.
  pose proof (draw_elements_calls es m) as Hc.
  assert (Hm : (draw_elements es m).1 = m).
  { apply map_eq. intros k. rewrite draw_elements_data.
    destruct (m !! k) eqn:Hk; [done|].
    apply decide_False. intros Hin.
    apply list_elem_of_fmap in Hin as (e & -> & He).
    destruct (Hall e He) as [p Hp]. congruence. }
  destruct (draw_elements es m) as [m' calls]. cbn in *. by subst.
Qed.

Lemma draw_elements_record (es : list element)
    (m : gmap Z (option element_data)) (k : Z) :
  record_of (draw_elements es m).1 k = record_of m k.
Proof.
  unfold record_of. rewrite draw_elements_data.
  destruct (m !! k); [done|]. by case_decide.
Qed.

(** X10. A frame changes no record: after [draw] every keycode is backed
    by the record it was backed by, and the elements, settings, image
    and loaded flag are as they were. *)
Theorem draw_keeps_records (o : overlay) (k : Z) :
  record_of (m_data (draw o).1) k = record_of (m_data o) k ∧
  m_elements (draw o).1 = m_elements o ∧
  m_settings (draw o).1 = m_settings o ∧
  m_image (draw o).1 = m_image o ∧
  m_is_loaded (draw o).1 = m_is_loaded o.
Proof.
  unfold draw. destruct (m_is_loaded o) eqn:Hl; [|done].
  pose proof (draw_elements_record (m_elements o) (m_data o) k) as Hr.
  destruct (draw_elements _ _) as [m calls]. done.
Qed.

(** X11. Drawing a second frame makes the same calls as the first and
    leaves the overlay as the first left it: the null entries a frame
    inserts are inserted once. *)
Theorem draw_twice (o : overlay) :
  draw (draw o).1 = draw o.
Proof.
  destruct (m_is_loaded o) eqn:Hl.
  - pose proof (draw_elements_calls (m_elements o) (m_data o)) as Hc.
    pose proof (draw_elements_data (m_elements o) (m_data o)) as Hd.
    pose proof (draw_elements_record (m_elements o) (m_data o)) as Hr.
    assert (Hd1 : draw o =
              (with_data (draw_elements (m_elements o) (m_data o)).1 o,
               (draw_elements (m_elements o) (m_data o)).2)).
    { unfold draw. rewrite Hl. by destruct (draw_elements _ _). }
    rewrite Hd1. cbn [fst].
    destruct (draw_elements (m_elements o) (m_data o)) as [m calls].
    cbn [fst snd] in *. unfold draw. cbn. rewrite Hl.
    rewrite draw_elements_settled.
    + unfold with_data. cbn. rewrite Hc. f_equal.
      apply map_ext. intros e. by rewrite Hr.
    + intros e He. rewrite Hd. destruct (m_data o !! get_keycode e); [done|].
      rewrite decide_True; [done|].
      apply list_elem_of_fmap. by exists e.
  - unfold draw. rewrite Hl. cbn. by rewrite Hl.
Qed.

(** ** Unloading *)

(** X12. After [unload] (which the destructor runs) a frame makes no
    draw call and a refresh cycle no look-up and no merge, whatever the
    loaded flag, which [unload] leaves as it was; both leave the
    unloaded overlay unchanged. *)
Theorem unload_then_draw_refresh `{ElementDataMerge} (o : overlay)
    (h : hook_state) (n : network_state) :
  draw (unload o) = (unload o, []) ∧
  refresh_data h n (unload o) =
    (λ _, (unload o, [])) <$> select_source h n (m_settings (unload o)) ∧
  m_is_loaded (unload o) = m_is_loaded o ∧
  unload (unload o) = unload o.
Proof.
  split; [|split; [|split]].
  - unfold draw. by destruct (m_is_loaded (unload o)).
  - unfold refresh_data.
    destruct (select_source h n _) as [[[src holder]|]|]; done.
  - done.
  - unfold unload, unload_texture. cbn. by destruct (m_image o).
Qed.

(** ** The names of the kinds *)

(** X13. [element_type_to_string] gives every kind a name of its own:
    two kinds with the same name are the same kind. *)
Theorem element_type_to_string_inj (a b : element_type) :
  element_type_to_string a = element_type_to_string b → a = b.
Proof. destruct a, b; cbn; intros Hn; first [reflexivity|discriminate Hn]. Qed.

(** ** Further properties of refreshing *)

Section RefreshMore.

Context `{ElementDataMerge}.

Lemma pull_fetched (src : holder_ref) (source : element_data_holder)
    (pad : N) (e : element) :
  (pull src source pad e).1 = fetched source pad e.
Proof. unfold pull, fetched. by destruct (get_source e). Qed.

Lemma refresh_elements_record (src : holder_ref)
    (source : element_data_holder) (pad : N) (es : list element)
    (m : gmap Z (option element_data)) (k : Z) :
  record_of (refresh_elements src source pad es m).1 k =
    absorbed source pad es k <$> record_of m k.
Proof.
  unfold absorbed. revert m. induction es as [|e es IH]; intros m.
  - cbn. by destruct (record_of m k).
  - cbn [refresh_elements].
    pose proof (refresh_element_record src source pad e m k) as Hr.
    destruct (refresh_element src source pad e m) as [m1 evs].
    specialize (IH m1).
    destruct (refresh_elements src source pad es m1) as [m2 evs'].
    cbn [fst snd] in *. rewrite IH, Hr, filter_cons, pull_fetched.
    destruct (decide (get_keycode e = k)); [|done].
    by destruct (record_of m k).
Qed.

(** X14. After a refresh cycle that has a source, the record of a
    keycode is the one before the cycle having absorbed, in sequence
    order, the fragment fetched for each element with that keycode (once
    per element, so twice for two elements sharing it); the record of a
    keycode no element has is unchanged, and so are the elements,
    settings, image and loaded flag. *)
Theorem refresh_records (h : hook_state) (n : network_state)
    (o o' : overlay) (src : holder_ref) (source : element_data_holder)
    (evs : list refresh_event) (k : Z) :
  select_source h n (m_settings o) = Some (Some (src, source)) →
  refresh_data h n o = Some (o', evs) →
  record_of (m_data o') k =
    absorbed source (gamepad (m_settings o)) (m_elements o) k
      <$> record_of (m_data o) k ∧
  m_elements o' = m_elements o ∧ m_settings o' = m_settings o ∧
  m_image o' = m_image o ∧ m_is_loaded o' = m_is_loaded o.
Proof.
  intros Hs. unfold refresh_data. rewrite Hs. cbn.
  pose proof (refresh_elements_record src source (gamepad (m_settings o))
                (m_elements o) (m_data o) k) as Hr.
  destruct (refresh_elements _ _ _ _ _) as [m evs0].
  by intros [= <- <-].
Qed.

(** X15. A frame drawn after a refresh cycle that has a source hands
    every element the record of its keycode with the fragments of the
    cycle absorbed: elements sharing a keycode are drawn with the same
    record. *)
Theorem refresh_then_draw (h : hook_state) (n : network_state)
    (o o' : overlay) (src : holder_ref) (source : element_data_holder)
    (evs : list refresh_event) :
  select_source h n (m_settings o) = Some (Some (src, source)) →
  refresh_data h n o = Some (o', evs) →
  m_is_loaded o = true →
  (draw o').2 =
    map (λ e, {| drawn := e;
                 drawn_data :=
                   absorbed source (gamepad (m_settings o)) (m_elements o)
                     (get_keycode e)
                     <$> record_of (m_data o) (get_keycode e) |})
      (m_elements o).
Proof.
  intros Hs. unfold refresh_data. rewrite Hs. cbn.
  pose proof (refresh_elements_record src source (gamepad (m_settings o))
                (m_elements o) (m_data o)) as Hr.
  destruct (refresh_elements _ _ _ _ _) as [m evs0].
  intros [= <- <-] Hl. unfold draw. cbn. rewrite Hl.
  pose proof (draw_elements_calls (m_elements o) m) as Hc.
  destruct (draw_elements _ _) as [m' calls]. cbn in *. rewrite Hc.
  apply map_ext. intros e. by rewrite Hr.
Qed.

(** X16. With selected source 0 the source of a cycle is the data
    holder of the local hook, when a producer is flagged; every look-up
    of the cycle is made on it, and the cycle does not depend on the
    server instance or its clients. *)
Theorem refresh_local_source (h : hook_state) (n : network_state)
    (o : overlay) :
  selected_source (m_settings o) = 0%N →
  select_source h n (m_settings o) =
    (if data_initialized h || network_flag n
     then Some (pair hook_input_data <$> input_data h) else Some None) ∧
  (∀ o' evs, refresh_data h n o = Some (o', evs) →
     Forall (λ ev, ∀ r, event_source ev = Some r → r = hook_input_data)
       evs) ∧
  (∀ server,
     refresh_data h
       {| network_flag := network_flag n; server_instance := server |} o
     = refresh_data h n o).
Proof.
  intros Hsel.
  assert (Hs : ∀ n', select_source h n' (m_settings o) =
            (if data_initialized h || network_flag n'
             then Some (pair hook_input_data <$> input_data h)
             else Some None)).
  { intros n'. unfold select_source. rewrite Hsel. cbn.
    destruct (_ || _); [|done]. by destruct (server_instance n'). }
  split; [apply Hs|]. split.
  - intros o' evs. unfold refresh_data. rewrite Hs.
    destruct (_ || _); cbn.
    + destruct (input_data h) as [holder|]; cbn.
      * pose proof (refresh_elements_source hook_input_data holder
                      (gamepad (m_settings o)) (m_elements o) (m_data o))
          as Hf.
        destruct (refresh_elements _ _ _ _ _) as [m evs0].
        by intros [= <- <-].
      * intros [= <- <-]. constructor.
    + intros [= <- <-]. constructor.
  - intros server. unfold refresh_data. by rewrite !Hs.
Qed.

(** X17. When the selected client has no data holder the cycle is
    skipped: no look-up, no merge, the overlay unchanged. The data of the
    local hook is not used in its place. *)
Theorem refresh_client_without_data (h : hook_state) (n : network_state)
    (o : overlay) (srv : io_server) (client : io_client) :
  server_instance n = Some srv →
  selected_source (m_settings o) ≠ 0%N →
  get_client srv (selected_source (m_settings o) - 1) = Some client →
  get_data client = None →
  refresh_data h n o = Some (o, []).
Proof.
  intros Hsrv Hsel Hc Hd.
  assert (Hpos : (0 <? selected_source (m_settings o))%N = true).
  { apply N.ltb_lt. lia. }
  unfold refresh_data, select_source. rewrite Hsrv, Hpos, Hc. cbn.
  rewrite Hd. by destruct (_ || _).
Qed.

(** X18. When no keycode is backed by a record, as after a load whose
    reader reported no error, a refresh cycle makes look-ups only and no
    merge, still no keycode is backed afterwards, and the next frame
    draws every element with the null pointer. *)
Theorem refresh_without_records (h : hook_state) (n : network_state)
    (o o' : overlay) (evs : list refresh_event) :
  (∀ k, record_of (m_data o) k = None) →
  refresh_data h n o = Some (o', evs) →
  Forall (λ ev, is_Some (event_source ev)) evs ∧
  (∀ k, record_of (m_data o') k = None) ∧
  Forall (λ c, drawn_data c = None) (draw o').2.
Proof.
  intros Hnone Hr.
  assert (Hkeep : Forall (λ ev, is_Some (event_source ev)) evs ∧
                  ∀ k, record_of (m_data o') k = None).
  { revert Hr. unfold refresh_data.
    destruct (select_source h n _) as [[[src holder]|]|]; cbn; [| |done].
    - pose proof (refresh_elements_events src holder (gamepad (m_settings o))
                    (m_elements o) (m_data o)) as He.
      pose proof (refresh_elements_backed src holder (gamepad (m_settings o))
                    (m_elements o) (m_data o)) as Hb.
      destruct (refresh_elements _ _ _ _ _) as [m evs0]. cbn in *.
      intros [= <- <-]. cbn. split.
      + rewrite He. clear He Hb.
        induction (m_elements o) as [|e es IH]; cbn; [constructor|].
        apply Forall_app. split; [|done].
        unfold expected_events. rewrite Hnone, app_nil_r.
        destruct (get_source e); repeat constructor; by eexists.
      + intros k. specialize (Hb k). rewrite Hnone in Hb.
        destruct (record_of m k) as [d|]; [|done].
        destruct Hb as [Hb _]. by destruct Hb.
    - intros [= <- <-]. split; [constructor|done]. }
  destruct Hkeep as [Hev Hrec]. split; [done|]. split; [done|].
  unfold draw. destruct (m_is_loaded o'); [|constructor].
  pose proof (draw_elements_calls (m_elements o') (m_data o')) as Hc.
  destruct (draw_elements _ _) as [m' calls]. cbn in *. rewrite Hc.
  apply Forall_forall. intros c Hin.
  apply list_elem_of_fmap in Hin as (e & -> & _). cbn. apply Hrec.
Qed.

End RefreshMore.

(** ** The statements at the sample files *)

Import Sample.


Lemma load_is_loaded_iff_witness :
  let o := initial "keys.png" "degraded.ini" 0 in
  let o' := loaded_from "keys.png" "degraded.ini" 0 in
  load 8 o = Some (true, o') ∧
  m_is_loaded o' = true ∧
  (load_texture (unload o)).1 = true ∧
  fst <$> load_cfg 8 (load_texture (unload o)).2 = Some true.
Proof.
  intros o o'.
  assert (Hl : load 8 o = Some (true, o')) by (vm_compute; reflexivity).
  destruct (load_is_loaded_iff 8 o o' true Hl) as [Hm [Hb _]].
  destruct (Hb eq_refl) as [Ht Hc]. done.
Defined.

Lemma load_failure_settings_witness :
  let o := initial "nope.png" "keys.ini" 0 in
  let o' := loaded_from "nope.png" "keys.ini" 0 in
  let p := initial "keys.png" "broken.ini" 0 in
  let p' := loaded_from "keys.png" "broken.ini" 0 in
  (load 8 o = Some (false, o') ∧
   (load_texture (unload o)).1 = false ∧
   gamepad (m_settings o') = 0%N ∧
   cx (m_settings o') = 100 ∧ cy (m_settings o') = 100) ∧
  (load 8 p = Some (false, p') ∧
   (load_texture (unload p)).1 = true ∧
   gamepad (m_settings p') = 0%N ∧
   cx (m_settings p') = 256 ∧ cy (m_settings p') = 128).
Proof.
  intros o o' p p'. split.
  - assert (Hl : load 8 o = Some (false, o')) by (vm_compute; reflexivity).
    assert (Ht : (load_texture (unload o)).1 = false) by reflexivity.
    destruct (load_failure_settings 8 o o' Hl) as (_ & Hg & Hs & _).
    destruct (Hs Ht) as [Hx Hy]. done.
  - assert (Hl : load 8 p = Some (false, p')) by (vm_compute; reflexivity).
    assert (Ht : (load_texture (unload p)).1 = true) by reflexivity.
    destruct (load_failure_settings 8 p p' Hl) as (_ & Hg & _ & Hs).
    destruct (Hs Ht (or_intror eq_refl)) as [Hx Hy]. done.
Defined.

Lemma load_idempotent_witness :
  let o := initial "keys.png" "degraded.ini" 0 in
  let o' := loaded_from "keys.png" "degraded.ini" 0 in
  load 8 o = Some (true, o') ∧ load 8 o' = Some (true, o').
Proof.
  intros o o'.
  assert (Hl : load 8 o = Some (true, o')) by (vm_compute; reflexivity).
  split; [done|]. by apply load_idempotent in Hl.
Defined.

Lemma stateful_elements_covered_witness :
  let o := initial "keys.png" "degraded.ini" 0 in
  let o' := loaded_from "keys.png" "degraded.ini" 0 in
  let b := {| e_id := "b"; get_type := BUTTON; get_keycode := 65;
              get_source := DEFAULT |} in
  load 8 o = Some (true, o') ∧
  (has_errors ∘ fst <$> read_layout 8 (load_texture (unload o)).2
     = Some true) ∧
  b ∈ m_elements o' ∧
  ∃ d, m_data o' !! 65 = Some (Some d).
Proof.
  intros o o' b.
  assert (Hl : load 8 o = Some (true, o')) by (vm_compute; reflexivity).
  assert (Hin : b ∈ m_elements o').
  { vm_compute. apply list_elem_of_further, list_elem_of_here. }
  destruct (read_layout 8 (load_texture (unload o)).2) as [[cfg o1]|] eqn:Hr;
    [|by vm_compute in Hr].
  assert (He : has_errors cfg = true).
  { vm_compute in Hr. by injection Hr as <- _. }
  split; [done|]. split; [exact (f_equal Some He)|]. split; [done|].
  exact (stateful_elements_covered 8 o o' o1 cfg b Hl Hr He Hin eq_refl).
Defined.

Lemma shared_keycode_last_wins_witness :
  let o := initial "keys.png" "mixed.ini" 0 in
  let o' := loaded_from "keys.png" "mixed.ini" 0 in
  load 8 o = Some (true, o') ∧
  m_data o' !! 65 = Some (Some (element_data_wheel STATE_RELEASED)).
Proof.
  intros o o'.
  assert (Hl : load 8 o = Some (true, o')) by (vm_compute; reflexivity).
  destruct (read_layout 8 (load_texture (unload o)).2) as [[cfg o1]|] eqn:Hr;
    [|by vm_compute in Hr].
  assert (He : has_errors cfg = true).
  { vm_compute in Hr. by injection Hr as <- _. }
  split; [done|].
  rewrite (shared_keycode_last_wins 8 o o' o1 cfg 65 Hl Hr He).
  reflexivity.
Defined.


Lemma refresh_source_exclusive_witness :
  let o := loaded_from "keys.png" "degraded.ini" 2 in
  selected_source (m_settings o) ≠ 0%N ∧
  select_source hook network (m_settings o)
    = Some (Some (client_data 1, client_holder)) ∧
  (∀ o' evs, refresh_data hook network o = Some (o', evs) →
     Forall (λ ev, ∀ r, event_source ev = Some r → r = client_data 1) evs) ∧
  refresh_data hook_down network o = refresh_data hook network o.
Proof.
  intros o.
  assert (Hsel : selected_source (m_settings o) ≠ 0%N) by (vm_compute; done).
  destruct (refresh_source_exclusive hook network o _ eq_refl Hsel)
    as (Hs & Hev & Hloc).
  split; [done|]. split; [exact Hs|]. split; [exact Hev|].
  exact (Hloc None).
Defined.

Lemma refresh_pull_and_merge_witness :
  let o := loaded_from "keys.png" "degraded.ini" 0 in
  select_source hook network_down (m_settings o)
    = Some (Some (hook_input_data, hook_holder)) ∧
  ∃ o', refresh_data hook network_down o =
          Some (o',
                [ fetch_by_code hook_input_data 65;
                  merge_call 65 (Some (element_data_button STATE_PRESSED));
                  fetch_by_code hook_input_data 65;
                  merge_call 65 (Some (element_data_button STATE_PRESSED));
                  fetch_by_code hook_input_data 1;
                  merge_call 1 None ]) ∧
        record_of (m_data o') 65 = Some (element_data_button STATE_PRESSED) ∧
        record_of (m_data o') 1 = Some (element_data_wheel STATE_RELEASED).
Proof.
  intros o.
  assert (Hs : select_source hook network_down (m_settings o)
               = Some (Some (hook_input_data, hook_holder))) by reflexivity.
  split; [done|].
  destruct (refresh_pull_and_merge hook network_down o _ _ Hs)
    as (o' & Hr & _ & _).
  exists o'. split; [exact Hr|].
  vm_compute in Hr. injection Hr as <-. by vm_compute.
Defined.

Lemma refresh_without_producer_witness :
  let o := loaded_from "keys.png" "degraded.ini" 0 in
  refresh_data hook_down network_down o = Some (o, []).
Proof.
  intros o.
  by destruct (refresh_without_producer hook_down network_down o
                 eq_refl eq_refl).
Defined.

Lemma draw_every_element_witness :
  let o := loaded_from "keys.png" "keys.ini" 0 in
  m_is_loaded o = true ∧ m_data o = ∅ ∧
  (draw o).2 =
    map (λ e, {| drawn := e; drawn_data := None |}) (m_elements o) ∧
  length (draw o).2 = 4%nat.
Proof.
  intros o.
  assert (Hl : m_is_loaded o = true) by reflexivity.
  destruct (draw_every_element o Hl) as [Hc _].
  split; [done|]. split; [reflexivity|]. rewrite Hc. split; reflexivity.
Defined.

(** ** Where the claims as written fail *)

(** C1 as written fails: a load whose configuration ends with errors,
    none fatal, returns true and keeps the texture element [t], whose
    keycode has no entry in the data map. *)
Lemma keycode_coverage_counterexample :
  let o' := loaded_from "keys.png" "degraded.ini" 0 in
  let t := {| e_id := "t"; get_type := TEXTURE; get_keycode := 0;
              get_source := NONE |} in
  load 8 (initial "keys.png" "degraded.ini" 0) = Some (true, o') ∧
  t ∈ m_elements o' ∧
  m_data o' !! get_keycode t = None.
Proof.
  intros o' t. split; [vm_compute; reflexivity|]. split.
  - vm_compute. do 3 apply list_elem_of_further. apply list_elem_of_here.
  - vm_compute. reflexivity.
Qed.

(** The same document without the faulty descriptor: the load returns
    true, the configuration reports no error, and the data map is left
    empty, so the button [a] has no record either. *)
Example load_without_errors_leaves_data_empty :
  let o' := loaded_from "keys.png" "keys.ini" 0 in
  let a := {| e_id := "a"; get_type := BUTTON; get_keycode := 65;
              get_source := DEFAULT |} in
  load 8 (initial "keys.png" "keys.ini" 0) = Some (true, o') ∧
  a ∈ m_elements o' ∧
  m_data o' = ∅.
Proof.
  intros o' a. split; [vm_compute; reflexivity|]. split.
  - vm_compute. apply list_elem_of_here.
  - vm_compute. reflexivity.
Qed.


(** C3 as written fails: with an image that loads and no layout path the
    load fails and the size stays that of the image, 256 by 128. *)
Lemma load_failure_size_counterexample :
  let o' := loaded_from "keys.png" EmptyString 0 in
  load 8 (initial "keys.png" EmptyString 0) = Some (false, o') ∧
  m_is_loaded o' = false ∧
  cx (m_settings o') = 256 ∧ cy (m_settings o') = 128 ∧
  cx (m_settings o') ≠ 100.
Proof.
  intros o'. split; [vm_compute; reflexivity|]. split; [reflexivity|].
  split; [reflexivity|]. split; [reflexivity|]. vm_compute. discriminate.
Qed.

(** ** The further properties at the sample files *)

Lemma load_success_iff_witness :
  let o := initial "keys.png" "degraded.ini" 0 in
  load 8 o = Some (true, loaded_from "keys.png" "degraded.ini" 0) ∧
  loaded (gs_image_file_init (image_file (m_settings o))) = true ∧
  ∃ cfg o1,
    read_layout 8 (load_texture (unload o)).2 = Some (cfg, o1) ∧
    has_fatal_errors cfg = false.
Proof.
  intros o.
  assert (Hl : load 8 o = Some (true, loaded_from "keys.png" "degraded.ini" 0))
    by (vm_compute; reflexivity).
  destruct (proj1 (load_success_iff 8 o _ true Hl) eq_refl)
    as (_ & Hi & _ & Hr).
  done.
Defined.

Lemma load_element_kinds_witness :
  let o' := loaded_from "keys.png" "degraded.ini" 0 in
  let w := {| e_id := "w"; get_type := MOUSE_SCROLLWHEEL; get_keycode := 1;
              get_source := DEFAULT |} in
  w ∈ m_elements o' ∧ get_type w ≠ TEXT ∧ get_type w ≠ INVALID.
Proof.
  intros o' w.
  assert (Hl : load 8 (initial "keys.png" "degraded.ini" 0) = Some (true, o'))
    by (vm_compute; reflexivity).
  assert (Hin : w ∈ m_elements o').
  { vm_compute. do 2 apply list_elem_of_further. apply list_elem_of_here. }
  destruct (load_element_kinds 8 _ o' true w Hl Hin) as (Ht & Hi & _).
  done.
Defined.

Lemma load_without_errors_data_empty_witness :
  let o := initial "keys.png" "keys.ini" 0 in
  let o' := loaded_from "keys.png" "keys.ini" 0 in
  load 8 o = Some (true, o') ∧ length (m_elements o') = 4%nat ∧
  m_data o' = ∅.
Proof.
  intros o o'.
  assert (Hl : load 8 o = Some (true, o')) by (vm_compute; reflexivity).
  destruct (read_layout 8 (load_texture (unload o)).2) as [[cfg o1]|] eqn:Hr;
    [|by vm_compute in Hr].
  assert (He : has_errors cfg = false).
  { vm_compute in Hr. by injection Hr as <- _. }
  destruct (load_without_errors_data_empty 8 o o' o1 cfg Hl Hr He) as [_ Hd].
  split; [done|]. split; [reflexivity|done].
Defined.

Lemma load_data_entries_witness :
  let o' := loaded_from "keys.png" "degraded.ini" 0 in
  m_data o' !! 1 = Some (Some (element_data_wheel STATE_RELEASED)) ∧
  ∃ e d, e ∈ m_elements o' ∧ get_keycode e = 1 ∧
         new_element_data (get_type e) = Some d ∧
         Some (element_data_wheel STATE_RELEASED) = Some d.
Proof.
  intros o'.
  assert (Hl : load 8 (initial "keys.png" "degraded.ini" 0) = Some (true, o'))
    by (vm_compute; reflexivity).
  assert (Hk : m_data o' !! 1 = Some (Some (element_data_wheel STATE_RELEASED)))
    by (vm_compute; reflexivity).
  split; [done|]. exact (load_data_entries 8 _ o' true 1 _ Hl Hk).
Defined.

Lemma load_settings_frame_witness :
  let o :=
    with_settings (set_gamepad 3) (initial "keys.png" "degraded.ini" 2) in
  ∃ o', load 8 o = Some (true, o') ∧
        gamepad (m_settings o) = 3%N ∧ gamepad (m_settings o') = 0%N ∧
        selected_source (m_settings o') = 2%N.
Proof.
  intros o.
  destruct (load 8 o) as [[b o']|] eqn:Hl; [|by vm_compute in Hl].
  assert (Hb : b = true) by (vm_compute in Hl; by injection Hl as <- _).
  subst b.
  destruct (load_settings_frame 8 o o' true Hl) as (Hg & _ & _ & Hs).
  exists o'. done.
Defined.

Lemma load_success_size_witness :
  let o' := loaded_from "keys.png" "degraded.ini" 0 in
  load 8 (initial "keys.png" "degraded.ini" 0) = Some (true, o') ∧
  cx (m_settings o') = 300 ∧ cy (m_settings o') = 200.
Proof.
  intros o'.
  assert (Hl : load 8 (initial "keys.png" "degraded.ini" 0) = Some (true, o'))
    by (vm_compute; reflexivity).
  destruct (load_success_size 8 _ o' Hl) as (Hx & Hy & _).
  split; [done|]. split; [exact Hx|exact Hy].
Defined.

Lemma load_texture_failure_witness :
  let o := initial "nope.png" "keys.ini" 0 in
  loaded (gs_image_file_init (image_file (m_settings o))) = false ∧
  ∃ o', (∀ fuel, load fuel o = Some (false, o')) ∧
        m_elements o' = [] ∧ cx (m_settings o') = 100.
Proof.
  intros o.
  assert (Hi : loaded (gs_image_file_init (image_file (m_settings o))) = false)
    by reflexivity.
  destruct (load_texture_failure o (or_intror Hi))
    as (o' & Hl & He & _ & _ & Hx & _).
  split; [done|]. exists o'. split; [|done].
  intros fuel. exact (Hl fuel open_document loader).
Defined.

Lemma load_ignores_stale_state_witness :
  let o := initial "keys.png" "degraded.ini" 0 in
  let stale :=
    with_settings (set_size 7 7)
      (with_is_loaded true
         (with_data {[ 9 := None ]}
            (with_elements
               [ {| e_id := "old"; get_type := DPAD_STICK;
                    get_keycode := 9; get_source := GAMEPAD |} ] o))) in
  load 8 stale = load 8 o.
Proof.
  intros o stale.
  exact (load_ignores_stale_state 8 o stale eq_refl eq_refl eq_refl eq_refl).
Defined.

Lemma reload_as_constructed_witness :
  let o := loaded_from "keys.png" "degraded.ini" 0 in
  str_empty (image_file (m_settings o)) = false ∧
  load 8 o = new_overlay 8 (m_settings o).
Proof.
  intros o.
  assert (Hi : str_empty (image_file (m_settings o)) = false) by reflexivity.
  split; [done|]. exact (reload_as_constructed 8 o Hi).
Defined.

Lemma load_image_witness :
  let o := initial "keys.png" "broken.ini" 0 in
  let o' := loaded_from "keys.png" "broken.ini" 0 in
  load 8 o = Some (false, o') ∧
  m_image o' = Some {| loaded := true; image_cx := 256; image_cy := 128 |}.
Proof.
  intros o o'.
  assert (Hl : load 8 o = Some (false, o')) by (vm_compute; reflexivity).
  split; [done|]. exact (load_image 8 o o' false Hl).
Defined.

Lemma element_type_to_string_inj_witness :
  element_type_to_string (kind_of_tag 8) = "DPad" ∧ kind_of_tag 8 = DPAD_STICK.
Proof.
  split; [reflexivity|].
  exact (element_type_to_string_inj (kind_of_tag 8) DPAD_STICK eq_refl).
Defined.

Lemma refresh_records_witness :
  let o := loaded_from "keys.png" "degraded.ini" 0 in
  ∃ o' evs,
    refresh_data hook network_down o = Some (o', evs) ∧
    record_of (m_data o) 65 = Some (element_data_button STATE_RELEASED) ∧
    record_of (m_data o') 65 = Some (element_data_button STATE_PRESSED) ∧
    record_of (m_data o') 1 = Some (element_data_wheel STATE_RELEASED).
Proof.
  intros o.
  assert (Hs : select_source hook network_down (m_settings o)
               = Some (Some (hook_input_data, hook_holder))) by reflexivity.
  destruct (refresh_data hook network_down o) as [[o' evs]|] eqn:Hr;
    [|by vm_compute in Hr].
  destruct (refresh_records hook network_down o o' _ _ evs 65 Hs Hr)
    as (H65 & _).
  destruct (refresh_records hook network_down o o' _ _ evs 1 Hs Hr)
    as (H1 & _).
  exists o', evs. split; [done|]. split; [reflexivity|].
  split; [exact H65|exact H1].
Defined.

Lemma refresh_then_draw_witness :
  let o := loaded_from "keys.png" "degraded.ini" 0 in
  ∃ o' evs,
    refresh_data hook network_down o = Some (o', evs) ∧
    drawn_data <$> (draw o').2 =
      [ Some (element_data_button STATE_PRESSED);
        Some (element_data_button STATE_PRESSED);
        Some (element_data_wheel STATE_RELEASED); None; None ].
Proof.
  intros o.
  assert (Hs : select_source hook network_down (m_settings o)
               = Some (Some (hook_input_data, hook_holder))) by reflexivity.
  destruct (refresh_data hook network_down o) as [[o' evs]|] eqn:Hr;
    [|by vm_compute in Hr].
  exists o', evs. split; [done|].
  rewrite (refresh_then_draw hook network_down o o' _ _ evs Hs Hr eq_refl).
  reflexivity.
Defined.

Lemma refresh_local_source_witness :
  let o := loaded_from "keys.png" "degraded.ini" 0 in
  selected_source (m_settings o) = 0%N ∧
  select_source hook network (m_settings o)
    = Some (Some (hook_input_data, hook_holder)) ∧
  refresh_data hook {| network_flag := true; server_instance := None |} o
    = refresh_data hook network o.
Proof.
  intros o.
  destruct (refresh_local_source hook network o eq_refl) as (Hs & _ & Hn).
  split; [reflexivity|]. split; [exact Hs|exact (Hn None)].
Defined.

Lemma refresh_client_without_data_witness :
  let o := loaded_from "keys.png" "degraded.ini" 1 in
  let n :=
    {| network_flag := true;
       server_instance := Some {| clients := [ {| get_data := None |} ] |} |} in
  selected_source (m_settings o) ≠ 0%N ∧
  refresh_data hook n o = Some (o, []).
Proof.
  intros o n.
  assert (Hsel : selected_source (m_settings o) ≠ 0%N) by (vm_compute; done).
  split; [done|].
  exact (refresh_client_without_data hook n o _ _ eq_refl Hsel eq_refl eq_refl).
Defined.

Lemma refresh_without_records_witness :
  let o := loaded_from "keys.png" "keys.ini" 0 in
  ∃ o',
    refresh_data hook network_down o =
      Some (o', [ fetch_by_code hook_input_data 65;
                  fetch_by_code hook_input_data 65;
                  fetch_by_code hook_input_data 1 ]) ∧
    Forall (λ c, drawn_data c = None) (draw o').2.
Proof.
  intros o.
  assert (Hnone : ∀ k, record_of (m_data o) k = None).
  { intros k. unfold record_of.
    replace (m_data o) with (∅ : gmap Z (option element_data))
      by (vm_compute; reflexivity).
    by rewrite lookup_empty. }
  destruct (refresh_data hook network_down o) as [[o' evs]|] eqn:Hr;
    [|by vm_compute in Hr].
  destruct (refresh_without_records hook network_down o o' evs Hnone Hr)
    as (_ & _ & Hd).
  exists o'. split; [|done].
  vm_compute in Hr. injection Hr as <- <-. reflexivity.
Defined.
